(** * FORCE launcher GUI: the run supervisor of [package/gui.py]

    A shallow embedding of the [BasicGUI] class of [src/package/gui.py]:
    the command builder [_build_script_command], the status panel
    [_update_status], the output writer [write_line], the cancel dialog
    [_ask_cancel], the thread body [_run_script] and its wiring in
    [run_script].

    The object and the part of the outside world it touches are one record,
    [world], threaded through a state-and-exception monad [M]: a Python
    [raise] keeps every mutation made before it.  What the operating system
    and the user decide (clock readings, whether the child can be spawned,
    what it prints, when it exits, what the user clicks while the thread
    runs) is an [oracle] the thread body is parameterised by.

    Scope of the model.  Seconds are rationals: [time.time()] is a reading
    supplied by the oracle, and the rounding error of the float subtraction,
    which keeps the order, is left out.  A child is taken to exit once it is
    waited for.  The user events interleaved with a run are the answers to
    the cancel dialog and the clicks on Run; a thread started by such a click
    is counted, its body is not interleaved with the run under study. *)

From Stdlib Require Import String Ascii List ZArith QArith Qround Bool Lia Lqa.
From Stdlib Require Import DecimalString Sorted.
Import ListNotations.

Local Open Scope list_scope.
Local Open Scope string_scope.

(** ** Python values used by the class *)

(** [str.endswith]: [s] or one of its tails is [suffix]. *)
Fixpoint endswith (s suffix : string) : bool :=
  String.eqb s suffix ||
  match s with
  | EmptyString => false
  | String _ s' => endswith s' suffix
  end.

(** [str(i)] for an integer (as interpolated by an f-string). *)
Definition str_int (i : Z) : string := NilZero.string_of_int (Z.to_int i).

(** Truthiness of the value returned by [Popen.poll()]: [None] and [0] are
    false. *)
Definition truthy (rc : option Z) : bool :=
  match rc with
  | None => false
  | Some c => negb (c =? 0)%Z
  end.

(** [round(x)] of a real number: to the nearest integer, ties to even. *)
Definition py_round (x : Q) : Z :=
  let f := Qfloor x in
  match Qcompare (x - inject_Z f) (1 # 2) with
  | Lt => f
  | Gt => (f + 1)%Z
  | Eq => if Z.even f then f else (f + 1)%Z
  end.

Definition pad2 (n : Z) : string :=
  if (n <? 10)%Z then "0" ++ str_int n else str_int n.

(** [str(datetime.timedelta(seconds=s))] for an integer number of seconds:
    the days are split off (floor division) and shown only when non-zero. *)
Definition timedelta_str (s : Z) : string :=
  let days := (s / 86400)%Z in
  let secs := (s mod 86400)%Z in
  let hh := (secs / 3600)%Z in
  let mm := ((secs / 60) mod 60)%Z in
  let ss := (secs mod 60)%Z in
  let hms := str_int hh ++ ":" ++ pad2 mm ++ ":" ++ pad2 ss in
  if (days =? 0)%Z then hms
  else str_int days ++ " day" ++ (if (Z.abs days =? 1)%Z then "" else "s")
       ++ ", " ++ hms.

(** ** Exceptions *)

Inductive exn : Type :=
| ValueError (msg : string)          (* raised by [_build_script_command] *)
| FileNotFoundError (msg : string)   (* raised by [run_script] *)
| RuntimeExc (name : string).        (* raised below the class: by
                                        [subprocess.Popen] (OSError, ...) or
                                        by a read of the pipe *)

(** ** The child process and its handle *)

(** What the spawned program does in one run, as seen from the parent:
    the successive results of reading the merged stdout/stderr pipe before
    end of file (a text line, or an exception raised by the read), the
    status it exits with, and whether it has already exited when the parent
    polls it after the output loop.  A child that never exits would keep
    [Popen.__exit__] from returning; it is outside the model. *)
Record process : Type := {
  output : list (exn + string);
  exit_code : Z;
  exited_when_polled : bool
}.

(** The [subprocess.Popen] object. *)
Record Popen : Type := {
  args : list string;
  child : process;
  stdout_closed : bool;
  returncode : option Z;
  terminate_calls : nat
}.

(** [Popen.poll()]: the cached return code, or the status of the child when
    it has exited (which it then caches), or [None]. *)
Definition poll (p : Popen) : option Z * Popen :=
  match returncode p with
  | Some c => (Some c, p)
  | None =>
      if exited_when_polled (child p)
      then (Some (exit_code (child p)),
            {| args := args p; child := child p;
               stdout_closed := stdout_closed p;
               returncode := Some (exit_code (child p));
               terminate_calls := terminate_calls p |})
      else (None, p)
  end.

(** [Popen.terminate()]: the request is sent, nothing is waited for. *)
Definition terminate (p : Popen) : Popen :=
  {| args := args p; child := child p; stdout_closed := stdout_closed p;
     returncode := returncode p;
     terminate_calls := S (terminate_calls p) |}.

(** [Popen.__exit__]: the pipe is closed and the child is waited for, which
    sets the return code. *)
Definition Popen_exit (p : Popen) : Popen :=
  {| args := args p; child := child p; stdout_closed := true;
     returncode := Some (match returncode p with
                         | Some c => c
                         | None => exit_code (child p)
                         end);
     terminate_calls := terminate_calls p |}.

(** A handle holds no resource any more: pipe closed, child reaped. *)
Definition released (p : Popen) : Prop :=
  stdout_closed p = true /\ returncode p <> None.

(** ** Observable calls *)

(** A log of the calls a consumer of the run can observe, in the order they
    are made.  It is bookkeeping of the model: the source has no such list. *)
Inductive event : Type :=
| OutputEvent (line : string)                     (* [write_line(line)] *)
| StatusUpdate (status : option string) (time_elapsed : option Q)
                                                  (* [_update_status(..)] *)
| Spawn (cmd : list string)                       (* [Popen(cmd, ..)] *)
| TerminateRequest                                (* [p.terminate()] *)
| ThreadStart.                                    (* [thread.start()] *)

(** ** The object and its world *)

Inductive tk_state : Type := NORMAL | DISABLED.

Record world : Type := {
  (* attributes of [BasicGUI] and of its widgets *)
  _file_arg : option string;
  _file_frame_shown : bool;
  _status_label : string;
  _time_elapsed_label : string;
  _text : string;
  _cancel_pressed : bool;
  _cancel_button : tk_state;
  _run_button : tk_state;
  _run_button_command : option string;  (* script the Run button is wired to *)
  (* the world around the object *)
  clock_reads : nat;          (* calls of [time.time()] made so far *)
  children : list Popen;      (* handles created so far, newest first *)
  threads : nat;              (* background threads started so far *)
  in_mainloop : bool;
  trace : list event
}.

Definition set_file_arg (v : option string) (w : world) : world :=
  Build_world v (_file_frame_shown w) (_status_label w) (_time_elapsed_label w)
    (_text w) (_cancel_pressed w) (_cancel_button w) (_run_button w)
    (_run_button_command w) (clock_reads w) (children w) (threads w)
    (in_mainloop w) (trace w).

Definition set_file_frame_shown (v : bool) (w : world) : world :=
  Build_world (_file_arg w) v (_status_label w) (_time_elapsed_label w)
    (_text w) (_cancel_pressed w) (_cancel_button w) (_run_button w)
    (_run_button_command w) (clock_reads w) (children w) (threads w)
    (in_mainloop w) (trace w).

Definition set_status_label (v : string) (w : world) : world :=
  Build_world (_file_arg w) (_file_frame_shown w) v (_time_elapsed_label w)
    (_text w) (_cancel_pressed w) (_cancel_button w) (_run_button w)
    (_run_button_command w) (clock_reads w) (children w) (threads w)
    (in_mainloop w) (trace w).

Definition set_time_elapsed_label (v : string) (w : world) : world :=
  Build_world (_file_arg w) (_file_frame_shown w) (_status_label w) v
    (_text w) (_cancel_pressed w) (_cancel_button w) (_run_button w)
    (_run_button_command w) (clock_reads w) (children w) (threads w)
    (in_mainloop w) (trace w).

Definition set_text (v : string) (w : world) : world :=
  Build_world (_file_arg w) (_file_frame_shown w) (_status_label w)
    (_time_elapsed_label w) v (_cancel_pressed w) (_cancel_button w)
    (_run_button w) (_run_button_command w) (clock_reads w) (children w)
    (threads w) (in_mainloop w) (trace w).

Definition set_cancel_pressed (v : bool) (w : world) : world :=
  Build_world (_file_arg w) (_file_frame_shown w) (_status_label w)
    (_time_elapsed_label w) (_text w) v (_cancel_button w) (_run_button w)
    (_run_button_command w) (clock_reads w) (children w) (threads w)
    (in_mainloop w) (trace w).

Definition set_cancel_button (v : tk_state) (w : world) : world :=
  Build_world (_file_arg w) (_file_frame_shown w) (_status_label w)
    (_time_elapsed_label w) (_text w) (_cancel_pressed w) v (_run_button w)
    (_run_button_command w) (clock_reads w) (children w) (threads w)
    (in_mainloop w) (trace w).

Definition set_run_button (v : tk_state) (w : world) : world :=
  Build_world (_file_arg w) (_file_frame_shown w) (_status_label w)
    (_time_elapsed_label w) (_text w) (_cancel_pressed w) (_cancel_button w)
    v (_run_button_command w) (clock_reads w) (children w) (threads w)
    (in_mainloop w) (trace w).

Definition set_run_button_command (v : option string) (w : world) : world :=
  Build_world (_file_arg w) (_file_frame_shown w) (_status_label w)
    (_time_elapsed_label w) (_text w) (_cancel_pressed w) (_cancel_button w)
    (_run_button w) v (clock_reads w) (children w) (threads w)
    (in_mainloop w) (trace w).

Definition set_clock_reads (v : nat) (w : world) : world :=
  Build_world (_file_arg w) (_file_frame_shown w) (_status_label w)
    (_time_elapsed_label w) (_text w) (_cancel_pressed w) (_cancel_button w)
    (_run_button w) (_run_button_command w) v (children w) (threads w)
    (in_mainloop w) (trace w).

Definition set_children (v : list Popen) (w : world) : world :=
  Build_world (_file_arg w) (_file_frame_shown w) (_status_label w)
    (_time_elapsed_label w) (_text w) (_cancel_pressed w) (_cancel_button w)
    (_run_button w) (_run_button_command w) (clock_reads w) v (threads w)
    (in_mainloop w) (trace w).

Definition set_threads (v : nat) (w : world) : world :=
  Build_world (_file_arg w) (_file_frame_shown w) (_status_label w)
    (_time_elapsed_label w) (_text w) (_cancel_pressed w) (_cancel_button w)
    (_run_button w) (_run_button_command w) (clock_reads w) (children w) v
    (in_mainloop w) (trace w).

Definition set_in_mainloop (v : bool) (w : world) : world :=
  Build_world (_file_arg w) (_file_frame_shown w) (_status_label w)
    (_time_elapsed_label w) (_text w) (_cancel_pressed w) (_cancel_button w)
    (_run_button w) (_run_button_command w) (clock_reads w) (children w)
    (threads w) v (trace w).

Definition log (e : event) (w : world) : world :=
  Build_world (_file_arg w) (_file_frame_shown w) (_status_label w)
    (_time_elapsed_label w) (_text w) (_cancel_pressed w) (_cancel_button w)
    (_run_button w) (_run_button_command w) (clock_reads w) (children w)
    (threads w) (in_mainloop w) (trace w ++ [e])%list.

(** [BasicGUI.__init__]: no file chosen, nothing shown, the Run button
    disabled and not yet wired, the Cancel button enabled. *)
Definition BasicGUI_init : world :=
  {| _file_arg := None;
     _file_frame_shown := true;
     _status_label := "Status: No file selected.";
     _time_elapsed_label := "Time elapsed:";
     _text := "";
     _cancel_pressed := false;
     _cancel_button := NORMAL;
     _run_button := DISABLED;
     _run_button_command := None;
     clock_reads := 0;
     children := [];
     threads := 0;
     in_mainloop := false;
     trace := [] |}.

(** ** State and exceptions *)

Definition M (A : Type) : Type := world -> (exn + A) * world.

Definition ret {A : Type} (a : A) : M A := fun w => (inr a, w).

Definition raise {A : Type} (e : exn) : M A := fun w => (inl e, w).

Definition bind {A B : Type} (m : M A) (k : A -> M B) : M B :=
  fun w =>
    match m w with
    | (inl e, w') => (inl e, w')
    | (inr a, w') => k a w'
    end.

(** A mutation that cannot fail. *)
Definition act (f : world -> world) : M unit := fun w => (inr tt, f w).

(** Reading the state. *)
Definition gets {A : Type} (f : world -> A) : M A := fun w => (inr (f w), w).

(** [try: body finally: cleanup], the shape of a [with] block: the cleanup
    runs on the normal and on the exceptional exit, and an exception of the
    body goes on propagating. *)
Definition finally {A : Type} (body : M A) (cleanup : world -> world) : M A :=
  fun w => let (r, w') := body w in (r, cleanup w').

Declare Scope py_scope.
Delimit Scope py_scope with py.
Notation "x <- m ;; k" := (bind m (fun x => k))
  (at level 61, m at next level, right associativity) : py_scope.
Notation "m ;; k" := (bind m (fun _ => k))
  (at level 61, right associativity) : py_scope.
Local Open Scope py_scope.

(** ** Methods of [BasicGUI] *)

(** [_update_status(status, time_elapsed)] (gui.py, lines 152-163). *)
Definition _update_status (status : option string) (time_elapsed : option Q)
  : M unit :=
  act (fun w =>
    let w1 := match status with
              | Some s => set_status_label ("Status: " ++ s) w
              | None => w
              end in
    let w2 := match time_elapsed with
              | Some t => set_time_elapsed_label
                            ("Time elapsed: " ++ timedelta_str (py_round t)) w1
              | None => w1
              end in
    log (StatusUpdate status time_elapsed) w2).

(** [write_line(line)] (lines 178-188): the line is inserted at the end of
    the text widget. *)
Definition write_line (line : string) : M unit :=
  act (fun w => log (OutputEvent line) (set_text (_text w ++ line) w)).

(** [_ask_cancel()] (lines 127-135); [response] is what the user answers in
    the confirmation dialog. *)
Definition _ask_cancel (response : bool) (w : world) : world :=
  if response then set_cancel_pressed true w else w.

(** [get_file_to_run()] (lines 137-150); [chosen] is what the file dialog
    returns, the empty string when the user dismisses it.  The label that
    shows the relative path of the file is not part of [world]. *)
Definition get_file_to_run (chosen : string) : M unit :=
  if String.eqb chosen "" then ret tt
  else
    act (set_file_arg (Some chosen)) ;;
    act (set_run_button NORMAL) ;;
    _update_status (Some "Ready") None.

(** [_build_script_command(filename)] (lines 190-206). *)
Definition _build_script_command (filename : string) : M (list string) :=
  cmd <- (if endswith filename ".py" || endswith filename ".pyc"
          then ret ["python"; "-u"; filename]
          else if endswith filename ".exe"
          then ret [filename]
          else if endswith filename ".sh"
          then ret ["bash"; filename]
          else raise (ValueError
                 ("File " ++ filename ++
                  " has an unrecognized extension. Must be .py, .exe, or .sh."))) ;;
  file_arg <- gets _file_arg ;;
  match file_arg with
  | Some a => ret (cmd ++ [a])%list
  | None => ret cmd
  end.

(** ** The controlling thread *)

(** The wrapper built by [threadify(func)] (lines 20-35): calling it starts
    a background thread that runs [func].  The thread is recorded; its body
    is [_run_script] below. *)
Definition threadify_wrapper (w : world) : world :=
  log ThreadStart (set_threads (S (threads w)) w).

(** A click on the Run button: Tk calls the command of a button only when
    the button is not disabled and a command is set. *)
Definition click_run (w : world) : world :=
  match _run_button w, _run_button_command w with
  | NORMAL, Some _ => threadify_wrapper w
  | _, _ => w
  end.

(** What the user does in the window while a background thread runs: answer
    the cancel dialog (Cancel button or Ctrl+C), or click Run.  Choosing
    another file in the meantime is [get_file_to_run] above, and is not among
    the events of a run. *)
Inductive ui_event : Type :=
| AskCancel (response : bool)
| ClickRun.

Definition ui_step (w : world) (ev : ui_event) : world :=
  match ev with
  | AskCancel response => _ask_cancel response w
  | ClickRun => click_run w
  end.

(** The event loop handling a batch of user events between two steps of the
    background thread. *)
Definition controlling_thread (evs : list ui_event) : M unit :=
  act (fun w => fold_left ui_step evs w).

(** ** The environment of one run *)

(** The user events are handed over in batches, at the points where the
    background thread waits: while the child is spawned, before each read of
    the pipe up to the check of the cancel flag that follows it, and while
    the child is waited for. *)
Record oracle : Type := {
  clock : nat -> Q;                       (* n-th reading of [time.time()] *)
  spawn : list string -> exn + process;   (* outcome of [Popen(cmd, ..)] *)
  ui_spawn : list ui_event;   (* user events while the child is being spawned *)
  ui_line : nat -> list ui_event;
                              (* user events while the k-th read blocks *)
  ui_exit : list ui_event     (* user events while the child is waited for *)
}.

(** [time.time()]. *)
Definition time_time (o : oracle) : M Q :=
  fun w => (inr (clock o (clock_reads w)), set_clock_reads (S (clock_reads w)) w).

(** [subprocess.Popen(cmd, stdout=PIPE, stderr=STDOUT, ..)]: raises, or
    creates a handle with an open pipe. *)
Definition Popen_new (o : oracle) (cmd : list string) : M Popen :=
  fun w =>
    match spawn o cmd with
    | inl e => (inl e, w)
    | inr c =>
        let p := {| args := cmd; child := c; stdout_closed := false;
                    returncode := None; terminate_calls := 0 |} in
        (inr p, log (Spawn cmd) (set_children (p :: children w) w))
    end.

(** The handle [p] of the running thread is the newest one. *)
Definition on_head (f : Popen -> Popen) (ps : list Popen) : list Popen :=
  match ps with
  | p :: ps' => f p :: ps'
  | [] => []
  end.

Definition on_p (f : Popen -> Popen) (w : world) : world :=
  set_children (on_head f (children w)) w.

Definition p_poll : M (option Z) :=
  fun w =>
    match children w with
    | p :: ps => let (rc, p') := poll p in (inr rc, set_children (p' :: ps) w)
    | [] => (inr None, w)
    end.

Definition p_terminate : M unit :=
  act (fun w => log TerminateRequest (on_p terminate w)).

Definition newline : string := String "010"%char EmptyString.

Definition terminated_notice : string := "Subprocess terminated." ++ newline.

(** [str(rc)] as the f-string of line 273 renders it. *)
Definition str_rc (rc : option Z) : string :=
  match rc with
  | Some c => str_int c
  | None => "None"
  end.

(** ** The thread body [_run_script] (lines 228-276) *)

(** Lines 263-271: [for line in p.stdout: ..].  [stdout] is what remains to
    be read, [k] counts the reads.  The value is [exit_status] when the loop
    is left: still ['Done'] at end of file, ['Halted'] after the [break]. *)
Fixpoint output_loop (o : oracle) (start_time : Q) (k : nat)
    (stdout : list (exn + string)) : M string :=
  controlling_thread (ui_line o k) ;;
  match stdout with
  | [] => ret "Done"
  | inl e :: _ => raise e
  | inr line :: rest =>
      write_line line ;;
      t <- time_time o ;;
      _update_status None (Some (t - start_time)) ;;
      cancel <- gets _cancel_pressed ;;
      if cancel : bool then
        p_terminate ;;
        write_line terminated_notice ;;
        ret "Halted"
      else output_loop o start_time (S k) rest
  end.

(** Lines 235-249: reset of the cancel flag, command, first status, start
    time, cleared text widget. *)
Definition run_prologue (o : oracle) (filename : string)
  : M (list string * Q) :=
  act (set_cancel_pressed false) ;;
  cmd <- _build_script_command filename ;;
  _update_status (Some "Running") (Some 0) ;;
  start_time <- time_time o ;;
  act (set_text "") ;;
  ret (cmd, start_time).

(** Lines 253-273: the [with subprocess.Popen(..) as p:] block.  Its value
    is the [exit_status] that line 275 shows. *)
Definition run_child (o : oracle) (cmd : list string) (start_time : Q)
  : M string :=
  p <- Popen_new o cmd ;;
  finally
    (act (set_run_button DISABLED) ;;
     act (set_cancel_button NORMAL) ;;
     exit_status <- output_loop o start_time 0 (output (child p)) ;;
     rc <- p_poll ;;
     if truthy rc then
       rc' <- p_poll ;;
       ret ("Error (" ++ str_rc rc' ++ ")")
     else ret exit_status)
    (on_p Popen_exit).

(** Lines 275-276. *)
Definition run_epilogue (o : oracle) (start_time : Q) (exit_status : string)
  : M unit :=
  t <- time_time o ;;
  _update_status (Some exit_status) (Some (t - start_time)) ;;
  act (set_run_button NORMAL).

(** The body in full.  The user events that arrive while the child is being
    spawned are handled between line 249 and line 254, those that arrive
    while the child is waited for between the [with] block and line 275. *)
Definition _run_script (o : oracle) (filename : string) : M unit :=
  cs <- run_prologue o filename ;;
  controlling_thread (ui_spawn o) ;;
  exit_status <- run_child o (fst cs) (snd cs) ;;
  controlling_thread (ui_exit o) ;;
  run_epilogue o (snd cs) exit_status.

(** ** [run_script] (lines 208-282) *)

(** [path_exists] is [os.path.exists] on the disk of the run. *)
Definition run_script (path_exists : string -> bool) (filename : string)
    (requires_input : bool) : M unit :=
  (if negb (path_exists filename)
   then raise (FileNotFoundError ("File " ++ filename ++ " does not exist."))
   else ret tt) ;;
  (if negb requires_input
   then _update_status (Some "Ready") None ;;
        act (set_run_button NORMAL) ;;
        act (set_file_frame_shown false)
   else ret tt) ;;
  act (set_run_button_command (Some filename)) ;;
  act (set_in_mainloop true).

(** ** Reading a run *)

(** Some event of the batch is a confirmed cancel request. *)
Definition cancel_requested (evs : list ui_event) : bool :=
  existsb (fun ev => match ev with AskCancel true => true | _ => false end) evs.

(** The events of reading the lines [ls] when the clock has been read [n]
    times before: each line is shown, then its elapsed time. *)
Fixpoint line_events (clk : nat -> Q) (start_time : Q) (n : nat)
    (ls : list string) : list event :=
  match ls with
  | [] => []
  | l :: ls' =>
      OutputEvent l :: StatusUpdate None (Some (clk n - start_time))
        :: line_events clk start_time (S n) ls'
  end.

(** The lines shown, in order. *)
Definition outputs (evs : list event) : list string :=
  flat_map (fun e => match e with OutputEvent l => [l] | _ => [] end) evs.

(** The elapsed times reported, in order. *)
Definition elapsed_times (evs : list event) : list Q :=
  flat_map (fun e => match e with
                     | StatusUpdate _ (Some t) => [t]
                     | _ => []
                     end) evs.

(** The number of termination requests. *)
Definition terminate_requests (evs : list event) : nat :=
  length (filter (fun e => match e with TerminateRequest => true | _ => false end)
            evs).

(** What one execution of the thread body adds to the log. *)
Definition run_events (o : oracle) (filename : string) (w : world)
  : list event :=
  skipn (length (trace w)) (trace (snd (_run_script o filename w))).

(** How the output loop was left after reading the lines [ls] of [stdout]:
    at end of file, by the [break] of a cancellation, or by an exception of
    the read that follows. *)
Inductive loop_exit (stdout : list (exn + string)) (ls : list string)
  : exn + string -> bool -> Prop :=
| exit_eof :
    stdout = map inr ls -> loop_exit stdout ls (inr "Done") false
| exit_break (rest : list (exn + string)) :
    stdout = (map inr ls ++ rest)%list -> ls <> [] ->
    loop_exit stdout ls (inr "Halted") true
| exit_raise (e : exn) (rest : list (exn + string)) :
    stdout = (map inr ls ++ inl e :: rest)%list ->
    loop_exit stdout ls (inl e) false.

(** The two events of an honoured cancellation. *)
Definition cancel_events (cancelled : bool) : list event :=
  if cancelled then [TerminateRequest; OutputEvent terminated_notice] else [].

(** The label of line 253 or 270 after the check of lines 272-273. *)
Definition final_status (exit_status : string) (rc : option Z) : string :=
  if truthy rc then "Error (" ++ str_rc rc ++ ")" else exit_status.

(** The input file appended to every command once one is selected. *)
Definition input_file (w : world) : list string :=
  match _file_arg w with
  | Some a => [a]
  | None => []
  end.

Definition unrecognized_extension (filename : string) : exn :=
  ValueError ("File " ++ filename ++
              " has an unrecognized extension. Must be .py, .exe, or .sh.").

(** What [p.poll()] reports at line 272, on a handle not polled before. *)
Definition polled (c : process) : option Z :=
  if exited_when_polled c then Some (exit_code c) else None.

(** The attributes that neither the user events of a run nor its output
    loop touch. *)
Definition same_panel (w w' : world) : Prop :=
  _file_arg w' = _file_arg w /\
  _file_frame_shown w' = _file_frame_shown w /\
  _status_label w' = _status_label w /\
  _cancel_button w' = _cancel_button w /\
  _run_button w' = _run_button w /\
  _run_button_command w' = _run_button_command w /\
  in_mainloop w' = in_mainloop w.

(** The events of a run whose child is spawned: the first status, the
    threads started by clicks made before the Run button is disabled, the
    spawn, the lines read, the cancellation when one is honoured, and the
    final status when the thread gets that far. *)
Definition spawned_events (o : oracle) (t0 n : nat) (cmd : list string)
    (ls : list string) (cancelled : bool) (closing : option string)
  : list event :=
  (StatusUpdate (Some "Running") (Some 0) :: repeat ThreadStart n
     ++ Spawn cmd :: line_events (clock o) (clock o t0) (S t0) ls
     ++ cancel_events cancelled
     ++ match closing with
        | Some label =>
            [StatusUpdate (Some label)
               (Some (clock o (S t0 + length ls) - clock o t0))]
        | None => []
        end)%list.





(** Every reading of the clock is at least the readings before it. *)
Definition monotone_clock (clk : nat -> Q) : Prop :=
  forall i j : nat, (i <= j)%nat -> clk i <= clk j.

(** ** Sample runs *)

(** The window after [run_script('driver.py', requires_input=False)], as the
    test code at the end of gui.py sets it up, every path existing. *)
Definition ready : world :=
  snd (run_script (fun _ => true) "driver.py" false BasicGUI_init).

(** The window once a case file is chosen in the dialog. *)
Definition selected : world :=
  snd (get_file_to_run "case.xml" BasicGUI_init).

(** A clock that advances by one second per reading. *)
Definition ticking (n : nat) : Q := inject_Z (100 + Z.of_nat n).

(** A clock set back by two seconds after its second reading. *)
Definition set_back (n : nat) : Q :=
  match n with
  | 0%nat => 100
  | 1%nat => 105
  | _ => 103
  end.

(** A child that prints [lines] and exits with [code]. *)
Definition prints (lines : list string) (code : Z) (exited : bool) : process :=
  {| output := map inr lines; exit_code := code; exited_when_polled := exited |}.

(** A user who touches nothing during the run. *)
Definition hands_off (clk : nat -> Q) (outcome : exn + process) : oracle :=
  {| clock := clk; spawn := fun _ => outcome;
     ui_spawn := []; ui_line := fun _ => []; ui_exit := [] |}.

(** The interpreter cannot be started. *)
Definition no_interpreter : oracle :=
  hands_off ticking (inl (RuntimeExc "FileNotFoundError")).

(** The child prints two lines and exits with status 3. *)
Definition exits_3 : oracle :=
  hands_off ticking
    (inr (prints ["a" ++ newline; "b" ++ newline] 3 true)).

(** A child that prints a line and exits with status 3, the end of file of
    its pipe reaching the parent before the process is gone: it is still
    running when it is polled. *)
Definition exits_3_late : oracle :=
  hands_off ticking (inr (prints ["a" ++ newline] 3 false)).

(** The same child under a clock that is set back during the run. *)
Definition clock_set_back : oracle :=
  hands_off set_back (inr (prints ["a" ++ newline] 0 true)).

(** A child that prints two lines and, once signalled, is killed at once:
    it has exited with -15 (killed by SIGTERM) when it is polled. *)
Definition killed_by_sigterm : process :=
  prints ["line1" ++ newline; "line2" ++ newline] (-15) true.

(** The user confirms the cancel dialog while the first read blocks. *)
Definition cancel_mid_stream : oracle :=
  {| clock := ticking;
     spawn := fun _ => inr killed_by_sigterm;
     ui_spawn := [];
     ui_line := fun k => match k with
                         | 0%nat => [AskCancel true]
                         | _ => []
                         end;
     ui_exit := [] |}.




(** ** The rest of the window *)

(** [write(text)] (lines 165-176): [for line in text] runs over the
    characters of the string; each one is inserted at the end of the text
    widget. *)
Fixpoint write_chars (text : string) (w : world) : world :=
  match text with
  | EmptyString => w
  | String c rest =>
      write_chars rest (set_text (_text w ++ String c EmptyString) w)
  end.

Definition write (text : string) : M unit := act (write_chars text).

(** The command of the Show/Hide button: one of the two methods. *)
Inductive output_command : Type := call_show_text | call_hide_text.

(** The object with the widgets that [world] leaves out: the window size,
    the Show/Hide button, whether the text widget is packed, and the label
    that names the chosen file. *)
Record window : Type := {
  gui : world;
  title : string;
  _window_size_no_output : string;
  _window_size_with_output : string;
  geometry : string;
  _show_output_text : string;
  _show_output_command : output_command;
  _text_packed : bool;
  _file_to_run_label : option string
}.

Definition set_gui (w : world) (v : window) : window :=
  Build_window w (title v) (_window_size_no_output v)
    (_window_size_with_output v) (geometry v) (_show_output_text v)
    (_show_output_command v) (_text_packed v) (_file_to_run_label v).

(** [BasicGUI.__init__(title)] (lines 40-105). *)
Definition BasicGUI___init__ (title : string) : window :=
  {| gui := BasicGUI_init;
     title := title;
     _window_size_no_output := "300x100";
     _window_size_with_output := "550x400";
     geometry := "300x100";
     _show_output_text := "Show Output";
     _show_output_command := call_show_text;
     _text_packed := false;
     _file_to_run_label := None |}.

(** [_show_text()] (lines 107-115). *)
Definition _show_text (v : window) : window :=
  {| gui := gui v;
     title := title v;
     _window_size_no_output := _window_size_no_output v;
     _window_size_with_output := _window_size_with_output v;
     geometry := _window_size_with_output v;
     _show_output_text := "Hide Output";
     _show_output_command := call_hide_text;
     _text_packed := true;
     _file_to_run_label := _file_to_run_label v |}.

(** [_hide_text()] (lines 117-125). *)
Definition _hide_text (v : window) : window :=
  {| gui := gui v;
     title := title v;
     _window_size_no_output := _window_size_no_output v;
     _window_size_with_output := _window_size_with_output v;
     geometry := _window_size_no_output v;
     _show_output_text := "Show Output";
     _show_output_command := call_show_text;
     _text_packed := false;
     _file_to_run_label := _file_to_run_label v |}.

(** A click on the Show/Hide button calls the method it is configured
    with. *)
Definition click_show_output (v : window) : window :=
  match _show_output_command v with
  | call_show_text => _show_text v
  | call_hide_text => _hide_text v
  end.

(** A method of the object run on the window it belongs to. *)
Definition on_gui {A : Type} (m : M A) (v : window) : (exn + A) * window :=
  let (r, w') := m (gui v) in (r, set_gui w' v).

(** [get_file_to_run()] on the whole window: line 148 shows the path of the
    chosen file relative to the working directory, [relpath] being
    [os.path.relpath]. *)
Definition window_get_file_to_run (relpath : string -> string)
    (chosen : string) (v : window) : window :=
  if String.eqb chosen "" then v
  else
    Build_window (snd (get_file_to_run chosen (gui v))) (title v)
      (_window_size_no_output v) (_window_size_with_output v) (geometry v)
      (_show_output_text v) (_show_output_command v) (_text_packed v)
      (Some (relpath chosen)).

(** [k] clicks on the Run button in a row. *)
Definition clicks (k : nat) (w : world) : world := Nat.iter k click_run w.

(** ** The RAVEN launcher ([raven_framework.py], lines 26-34) *)




(** ** More ways to read a run *)

(** The strings in a row. *)
Definition joined (ls : list string) : string := fold_right append "" ls.

(** The batch without the cancel dialogs the user declined. *)
Definition without_declined (evs : list ui_event) : list ui_event :=
  filter (fun ev => match ev with AskCancel false => false | _ => true end)
    evs.

(** The same environment, every declined cancel dialog left out. *)
Definition ignore_declined (o : oracle) : oracle :=
  {| clock := clock o;
     spawn := spawn o;
     ui_spawn := without_declined (ui_spawn o);
     ui_line := fun k => without_declined (ui_line o k);
     ui_exit := without_declined (ui_exit o) |}.

(** The Show/Hide button and the text widget agree: the output is hidden
    and the button offers to show it, or the other way round. *)
Definition output_hidden (v : window) : Prop :=
  _show_output_command v = call_show_text /\
  _show_output_text v = "Show Output" /\
  _text_packed v = false /\
  geometry v = _window_size_no_output v.

Definition output_shown (v : window) : Prop :=
  _show_output_command v = call_hide_text /\
  _show_output_text v = "Hide Output" /\
  _text_packed v = true /\
  geometry v = _window_size_with_output v.

(** The text widget follows the log: between [w] and [w'] the events [evs]
    were logged and the lines they show were appended to the text. *)
Definition text_follows (w w' : world) : Prop :=
  exists evs : list event,
    trace w' = (trace w ++ evs)%list /\
    _text w' = _text w ++ joined (outputs evs).

(** A computation that keeps the text widget in step with the log, however
    it ends. *)
Definition keeps_text {A : Type} (m : M A) : Prop :=
  forall w : world, text_follows w (snd (m w)).

(** The two labels of the status panel. *)
Definition panel_of (w : world) : string * string :=
  (_status_label w, _time_elapsed_label w).

(** What the panel shows after a logged call, given what it showed before:
    a status update replaces the label of each argument it carries. *)
Definition shown (labels : string * string) (e : event) : string * string :=
  match e with
  | StatusUpdate status time_elapsed =>
      (match status with
       | Some s => "Status: " ++ s
       | None => fst labels
       end,
       match time_elapsed with
       | Some t => "Time elapsed: " ++ timedelta_str (py_round t)
       | None => snd labels
       end)
  | _ => labels
  end.

(** The panel follows the log: between [w] and [w'] the events [evs] were
    logged and the labels are those the status updates among them leave. *)
Definition panel_follows (w w' : world) : Prop :=
  exists evs : list event,
    trace w' = (trace w ++ evs)%list /\
    panel_of w' = fold_left shown evs (panel_of w).

Definition keeps_panel {A : Type} (m : M A) : Prop :=
  forall w : world, panel_follows w (snd (m w)).

(** A computation that leaves the Cancel button enabled when it finds it
    so. *)
Definition keeps_cancel_enabled {A : Type} (m : M A) : Prop :=
  forall w : world,
    _cancel_button w = NORMAL -> _cancel_button (snd (m w)) = NORMAL.

(** A read of the pipe raises in the middle of the output. *)
Definition read_fails : oracle :=
  hands_off ticking
    (inr {| output := [inr ("a" ++ newline);
                       inl (RuntimeExc "UnicodeDecodeError")];
            exit_code := 0; exited_when_polled := true |}).

(** The user confirms the cancel dialog only after the last line was
    read. *)
Definition cancel_too_late : oracle :=
  {| clock := ticking;
     spawn := fun _ => inr (prints ["a" ++ newline] 0 true);
     ui_spawn := [];
     ui_line := fun k => match k with
                         | 1%nat => [AskCancel true]
                         | _ => []
                         end;
     ui_exit := [AskCancel true] |}.

(** * Properties *)

(** ** Strings *)

Lemma endswith_refl (s : string) : endswith s s = true.
Proof.
  destruct s; cbn [endswith]; rewrite String.eqb_refl; reflexivity.
Qed.


Lemma endswith_length (s suffix : string) :
  endswith s suffix = true -> (String.length suffix <= String.length s)%nat.
Proof.
  induction s as [|c s IH]; cbn [endswith];
    rewrite orb_true_iff, String.eqb_eq.
  - intros [<- | H]; [apply le_n | discriminate].
  - intros [<- | H]; [apply le_n | apply le_S, IH, H].
Qed.

(** Two suffixes of one string: the shorter is a suffix of the longer. *)
Lemma endswith_both (s a b : string) :
  endswith s a = true -> endswith s b = true ->
  (String.length a <= String.length b)%nat -> endswith b a = true.
Proof.
  induction s as [|c s IH]; cbn [endswith];
    rewrite !orb_true_iff, !String.eqb_eq.
  - intros [<- | Ha] [<- | Hb] _; try discriminate. reflexivity.
  - intros [<- | Ha] [<- | Hb] Hl.
    + apply endswith_refl.
    + apply endswith_length in Hb. simpl in Hl. lia.
    + cbn [endswith]. rewrite Ha. apply orb_true_r.
    + apply IH; assumption.
Qed.

Lemma endswith_exclusive (s a b : string) :
  endswith b a = false -> (String.length a <= String.length b)%nat ->
  endswith s a = true -> endswith s b = true -> False.
Proof.
  intros Hab Hl Ha Hb.
  rewrite (endswith_both s a b Ha Hb Hl) in Hab. discriminate.
Qed.

(** ** Numbers and their rendering *)

Example str_int_negative : str_int (-15) = "-15".
Proof. reflexivity. Qed.

Example py_round_ties_to_even :
  py_round (5 # 2) = 2%Z /\ py_round (7 # 2) = 4%Z /\ py_round (-5 # 2) = (-2)%Z.
Proof. repeat split. Qed.

Example timedelta_str_hms :
  timedelta_str 3725 = "1:02:05" /\ timedelta_str 90061 = "1 day, 1:01:01" /\
  timedelta_str (-5) = "-1 day, 23:59:55".
Proof. repeat split. Qed.

Lemma py_round_bounds (x : Q) :
  (Qfloor x <= py_round x <= Qfloor x + 1)%Z.
Proof.
  unfold py_round.
  destruct (Qcompare (x - inject_Z (Qfloor x)) (1 # 2));
    try destruct (Z.even (Qfloor x)); lia.
Qed.

(** Rounding keeps the order. *)
Lemma py_round_monotone (x y : Q) : x <= y -> (py_round x <= py_round y)%Z.
Proof.
  intros H. pose proof (Qfloor_resp_le x y H) as Hf.
  destruct (Z.eq_dec (Qfloor x) (Qfloor y)) as [E | N].
  - unfold py_round. rewrite <- E.
    destruct (Qcompare_spec (x - inject_Z (Qfloor x)) (1 # 2)) as [X | X | X];
      destruct (Qcompare_spec (y - inject_Z (Qfloor x)) (1 # 2)) as [Y | Y | Y];
      try destruct (Z.even (Qfloor x)); try lia; exfalso; lra.
  - pose proof (py_round_bounds x). pose proof (py_round_bounds y). lia.
Qed.

(** ** The command builder *)

Ltac run_monad :=
  unfold bind, ret, raise, act, gets, finally; cbn [fst snd].

(** The builder reads [_file_arg] and changes nothing. *)
Lemma build_script_command_eq (filename : string) (w : world) :
  _build_script_command filename w =
  (if endswith filename ".py" || endswith filename ".pyc"
   then inr (["python"; "-u"; filename] ++ input_file w)%list
   else if endswith filename ".exe"
   then inr ([filename] ++ input_file w)%list
   else if endswith filename ".sh"
   then inr (["bash"; filename] ++ input_file w)%list
   else inl (unrecognized_extension filename), w).
Proof.
  unfold _build_script_command, input_file, unrecognized_extension. run_monad.
  destruct (endswith filename ".py" || endswith filename ".pyc");
    [destruct (_file_arg w); reflexivity|].
  destruct (endswith filename ".exe");
    [destruct (_file_arg w); reflexivity|].
  destruct (endswith filename ".sh");
    [destruct (_file_arg w); reflexivity|].
  reflexivity.
Qed.

Lemma build_script_command_world (filename : string) (w : world) :
  snd (_build_script_command filename w) = w.
Proof. rewrite build_script_command_eq. reflexivity. Qed.

(** The command depends on the world through [_file_arg] only. *)
Lemma build_script_command_file_arg (filename : string) (w w' : world) :
  _file_arg w' = _file_arg w ->
  fst (_build_script_command filename w') =
  fst (_build_script_command filename w).
Proof.
  intros H. rewrite !build_script_command_eq. unfold input_file.
  rewrite H. reflexivity.
Qed.

(** An unsupported file type stops the thread at line 242: only the reset
    of the cancel flag has happened. *)
Lemma run_script_unsupported (o : oracle) (filename : string) (w : world)
    (e : exn) :
  fst (_build_script_command filename w) = inl e ->
  _run_script o filename w = (inl e, set_cancel_pressed false w).
Proof.
  intros H.
  rewrite <- (build_script_command_file_arg filename w
                (set_cancel_pressed false w) eq_refl) in H.
  unfold _run_script, run_prologue. run_monad.
  pose proof (build_script_command_world filename (set_cancel_pressed false w))
    as Hw.
  destruct (_build_script_command filename (set_cancel_pressed false w))
    as [r w1].
  cbn [fst snd] in Hw, H. subst. reflexivity.
Qed.

(** ** The controlling thread during a run *)

Lemma same_panel_refl (w : world) : same_panel w w.
Proof. repeat split. Qed.

Lemma same_panel_trans (w1 w2 w3 : world) :
  same_panel w1 w2 -> same_panel w2 w3 -> same_panel w1 w3.
Proof.
  unfold same_panel. intros H1 H2.
  decompose [and] H1. decompose [and] H2. repeat split; congruence.
Qed.

(** A disabled Run button swallows the click. *)
Lemma click_run_disabled (w : world) :
  _run_button w = DISABLED -> click_run w = w.
Proof. unfold click_run. intros ->. reflexivity. Qed.


Lemma ui_step_effect (w : world) (ev : ui_event) :
  let w' := ui_step w ev in
  same_panel w w' /\
  clock_reads w' = clock_reads w /\
  children w' = children w /\
  _cancel_pressed w' = _cancel_pressed w || cancel_requested [ev] /\
  exists n, threads w' = (threads w + n)%nat /\
            trace w' = (trace w ++ repeat ThreadStart n)%list /\
            (_run_button w = DISABLED -> n = 0%nat).
Proof.
  destruct ev as [[|]|]; cbn.
  - repeat split. { rewrite orb_true_r. reflexivity. }
    exists 0%nat. cbn. rewrite Nat.add_0_r, app_nil_r. auto.
  - repeat split. { rewrite orb_false_r. reflexivity. }
    exists 0%nat. cbn. rewrite Nat.add_0_r, app_nil_r. auto.
  - unfold click_run.
    destruct (_run_button w) eqn:Hb; [destruct (_run_button_command w) eqn:Hc|];
      cbn; rewrite orb_false_r; repeat split; try congruence.
    + exists 1%nat. cbn. rewrite Nat.add_1_r. repeat split. discriminate.
    + exists 0%nat. cbn. rewrite Nat.add_0_r, app_nil_r. auto.
    + exists 0%nat. cbn. rewrite Nat.add_0_r, app_nil_r. auto.
Qed.

Lemma controlling_thread_effect (evs : list ui_event) (w : world) :
  let w' := fold_left ui_step evs w in
  same_panel w w' /\
  clock_reads w' = clock_reads w /\
  children w' = children w /\
  _cancel_pressed w' = _cancel_pressed w || cancel_requested evs /\
  exists n, threads w' = (threads w + n)%nat /\
            trace w' = (trace w ++ repeat ThreadStart n)%list /\
            (_run_button w = DISABLED -> n = 0%nat).
Proof.
  revert w. induction evs as [|ev evs IH]; intros w; cbn [fold_left].
  - cbn. split; [apply same_panel_refl|]. rewrite orb_false_r.
    repeat split. exists 0%nat. rewrite Nat.add_0_r, app_nil_r. auto.
  - destruct (ui_step_effect w ev) as (P1 & C1 & K1 & F1 & n1 & T1 & L1 & D1).
    destruct (IH (ui_step w ev)) as (P2 & C2 & K2 & F2 & n2 & T2 & L2 & D2).
    cbv zeta in *. split; [eapply same_panel_trans; eassumption|].
    split; [congruence|]. split; [congruence|]. split.
    + rewrite F2, F1. cbn [cancel_requested existsb]. rewrite orb_false_r.
      apply eq_sym, orb_assoc.
    + exists (n1 + n2)%nat. rewrite T2, T1, L2, L1, repeat_app.
      split; [lia|]. split; [rewrite app_assoc; reflexivity|].
      intros Hd. rewrite (D1 Hd). apply D2.
      destruct P1 as (_ & _ & _ & _ & Hb & _). congruence.
Qed.

(** ** The output loop *)

Ltac unfold_gui :=
  unfold controlling_thread, write_line, time_time, _update_status,
    p_terminate, on_p; run_monad.

Ltac fields :=
  cbn [_file_arg _file_frame_shown _status_label _time_elapsed_label _text
       _cancel_pressed _cancel_button _run_button _run_button_command
       clock_reads children threads in_mainloop trace
       log set_file_arg set_file_frame_shown set_status_label
       set_time_elapsed_label set_text set_cancel_pressed set_cancel_button
       set_run_button set_run_button_command set_clock_reads set_children
       set_threads set_in_mainloop fst snd] in *.

Ltac panel H :=
  let a := fresh "Pfa" in let b := fresh "Pff" in let c := fresh "Pst" in
  let d := fresh "Pcb" in let e := fresh "Prb" in let f := fresh "Prc" in
  let g := fresh "Pml" in
  destruct H as (a & b & c & d & e & f & g).

(** What the loop of lines 263-271 does while the Run button is disabled:
    it reads some lines [ls], shows each followed by its elapsed time, and
    is left in one of the three ways of [loop_exit]; it is left by the
    [break] only when a cancellation had been confirmed. *)
Lemma output_loop_spec (o : oracle) (st : Q) (stdout : list (exn + string)) :
  forall (k : nat) (w : world),
  _run_button w = DISABLED ->
  exists (ls : list string) (cancelled : bool),
    let r := fst (output_loop o st k stdout w) in
    let w' := snd (output_loop o st k stdout w) in
    loop_exit stdout ls r cancelled /\
    same_panel w w' /\
    threads w' = threads w /\
    clock_reads w' = (clock_reads w + length ls)%nat /\
    children w' =
      (if cancelled then on_head terminate (children w) else children w) /\
    trace w' = (trace w ++ line_events (clock o) st (clock_reads w) ls
                  ++ cancel_events cancelled)%list /\
    (cancelled = true ->
       _cancel_pressed w = true \/
       exists j, (j < length ls)%nat /\
                 cancel_requested (ui_line o (k + j)) = true) /\
    (cancelled = false ->
       forall j, (j < length ls)%nat ->
                 _cancel_pressed w = false /\
                 cancel_requested (ui_line o (k + j)) = false).
Proof.
  induction stdout as [|[e|l] rest IH]; intros k w Hd;
    destruct (controlling_thread_effect (ui_line o k) w)
      as (P1 & C1 & K1 & F1 & n & T1 & L1 & D1);
    cbv zeta in *; specialize (D1 Hd); subst n;
    rewrite Nat.add_0_r in T1; cbn [repeat] in L1; rewrite app_nil_r in L1.
  - exists [], false. cbn [output_loop]. unfold_gui. cbn [line_events cancel_events length].
    rewrite Nat.add_0_r, app_nil_r.
    repeat split; try assumption; try apply P1; try discriminate;
      try (cbn in *; lia).
    apply exit_eof. reflexivity.
  - exists [], false. cbn [output_loop]. unfold_gui. cbn [line_events cancel_events length].
    rewrite Nat.add_0_r, app_nil_r.
    repeat split; try assumption; try apply P1; try discriminate;
      try (cbn in *; lia).
    apply (exit_raise _ _ e rest). reflexivity.
  - cbn [output_loop]. unfold_gui.
    set (w1 := fold_left ui_step (ui_line o k) w) in *.
    cbn [_cancel_pressed log set_time_elapsed_label set_clock_reads set_text].
    destruct (_cancel_pressed w1) eqn:Hc.
    + exists [l], true. panel P1. fields.
      split. { apply (exit_break _ _ rest); [reflexivity | discriminate]. }
      split. { repeat split; fields; assumption. }
      split. { assumption. }
      split. { rewrite C1. cbn. lia. }
      split. { rewrite K1. reflexivity. }
      split. { rewrite L1, C1. cbn. rewrite <- !app_assoc. reflexivity. }
      split; [|discriminate].
      intros _. symmetry in F1. apply orb_true_iff in F1.
      destruct F1 as [F1 | F1]; [left; exact F1|].
      right. exists 0%nat. rewrite Nat.add_0_r. split; [cbn; lia | exact F1].
    + match goal with
      | |- context [output_loop o st (S k) rest ?w2] =>
          assert (IH2 := IH (S k) w2);
          destruct (output_loop o st (S k) rest w2) as [r2 w3]
      end.
      panel P1. fields.
      destruct IH2 as (ls & c & E2 & P2 & T2 & C2 & K2 & L2 & R2 & R3);
        [congruence|].
      panel P2. fields. exists (l :: ls), c.
      split.
      { destruct E2 as [E | rest0 E N | e rest0 E]; rewrite E.
        - apply exit_eof. reflexivity.
        - apply (exit_break _ _ rest0); [reflexivity | discriminate].
        - apply (exit_raise _ _ e rest0). reflexivity. }
      split. { repeat split; congruence. }
      split. { congruence. }
      split. { rewrite C2, C1. cbn. lia. }
      split. { rewrite K2, K1. reflexivity. }
      split. { rewrite L2, L1, C1. cbn [line_events]. rewrite <- !app_assoc.
               reflexivity. }
      symmetry in F1. apply orb_false_iff in F1. destruct F1 as [F0 F1].
      split.
      { intros Ht. destruct (R2 Ht) as [R | (j & Hj & R)]; [congruence|].
        right. exists (S j). split; [cbn; lia|].
        rewrite Nat.add_succ_r. exact R. }
      intros Hf [|j] Hj.
      { rewrite Nat.add_0_r. split; assumption. }
      cbn in Hj. destruct (R3 Hf j) as [_ R]; [lia|].
      rewrite Nat.add_succ_r. split; assumption.
Qed.

(** ** The [with] block *)



Lemma p_poll_head (w : world) (h : Popen) (ps : list Popen) :
  children w = h :: ps ->
  p_poll w = (inr (fst (poll h)), set_children (snd (poll h) :: ps) w).
Proof.
  intros H. unfold p_poll. rewrite H. destruct (poll h). reflexivity.
Qed.

Lemma poll_fresh (h : Popen) :
  returncode h = None ->
  fst (poll h) = polled (child h) /\
  child (snd (poll h)) = child h /\
  args (snd (poll h)) = args h /\
  stdout_closed (snd (poll h)) = stdout_closed h /\
  terminate_calls (snd (poll h)) = terminate_calls h /\
  returncode (snd (poll h)) = polled (child h).
Proof.
  intros H. unfold poll, polled. rewrite H.
  destruct (exited_when_polled (child h)); cbn; repeat split; assumption.
Qed.

(** A return code, once set, is what every later poll reports. *)
Lemma poll_cached (h : Popen) (c : Z) :
  returncode h = Some c -> poll h = (Some c, h).
Proof. intros H. unfold poll. rewrite H. reflexivity. Qed.

Lemma Popen_exit_released (h : Popen) : released (Popen_exit h).
Proof. split; cbn; [reflexivity | discriminate]. Qed.

Ltac conjuncts :=
  repeat match goal with |- _ /\ _ => split end;
  try assumption; try congruence; try discriminate;
  try apply Popen_exit_released;
  try (cbn [args child terminate_calls Popen_exit]; congruence);
  try match goal with
      | L : trace _ = _ |- trace _ = _ =>
          rewrite L, <- ?app_assoc; reflexivity
      end.

(** A failed spawn leaves the block with nothing done. *)
Lemma run_child_spawn_error (o : oracle) (cmd : list string) (st : Q)
    (w : world) (e : exn) :
  spawn o cmd = inl e -> run_child o cmd st w = (inl e, w).
Proof.
  intros H. unfold run_child, Popen_new. run_monad. rewrite H. reflexivity.
Qed.

(** The block once the child is spawned: the loop, the label, the release
    of the handle. *)
Lemma run_child_spec (o : oracle) (cmd : list string) (st : Q) (w : world)
    (c : process) :
  spawn o cmd = inr c ->
  exists (ls : list string) (cancelled : bool) (r : exn + string) (h : Popen),
    let res := run_child o cmd st w in
    loop_exit (output c) ls r cancelled /\
    fst res = match r with
              | inl e => inl e
              | inr exit_status => inr (final_status exit_status (polled c))
              end /\
    _file_arg (snd res) = _file_arg w /\
    _status_label (snd res) = _status_label w /\
    _run_button (snd res) = DISABLED /\
    _run_button_command (snd res) = _run_button_command w /\
    threads (snd res) = threads w /\
    clock_reads (snd res) = (clock_reads w + length ls)%nat /\
    children (snd res) = h :: children w /\
    released h /\ args h = cmd /\ child h = c /\
    terminate_calls h = (if cancelled then 1 else 0)%nat /\
    trace (snd res) =
      (trace w ++ Spawn cmd :: line_events (clock o) st (clock_reads w) ls
         ++ cancel_events cancelled)%list /\
    (cancelled = true ->
       _cancel_pressed w = true \/
       exists j, (j < length ls)%nat /\ cancel_requested (ui_line o j) = true) /\
    (cancelled = false ->
       forall j, (j < length ls)%nat ->
                 _cancel_pressed w = false /\
                 cancel_requested (ui_line o j) = false).
Proof.
  intros Hs. unfold run_child, Popen_new. run_monad. rewrite Hs. cbn [child output].
  match goal with
  | |- context [output_loop o st 0 (output c) ?w3] =>
      assert (L := output_loop_spec o st (output c) 0 w3 eq_refl);
      destruct (output_loop o st 0 (output c) w3) as [r w4]
  end.
  destruct L as (ls & cancelled & E & P & T & C & K & L & R2 & R3).
  panel P. fields. cbn [Nat.add] in R2, R3.
  set (h0 := {| args := cmd; child := c; stdout_closed := false;
                returncode := None; terminate_calls := 0 |}) in *.
  set (h1 := if cancelled then terminate h0 else h0).
  assert (K' : children w4 = h1 :: children w).
  { rewrite K. unfold h1. destruct cancelled; reflexivity. }
  assert (Hh1 : returncode h1 = None /\ child h1 = c /\ args h1 = cmd /\
                terminate_calls h1 = (if cancelled then 1 else 0)%nat).
  { unfold h1. destruct cancelled; cbn; auto. }
  destruct Hh1 as (Hrc & Hch & Har & Htc).
  destruct (poll_fresh h1 Hrc) as (Q1 & Q2 & Q3 & Q4 & Q5 & Q6).
  rewrite Hch in Q1, Q2, Q6.
  exists ls, cancelled, r. destruct r as [e | exit_status].
  - exists (Popen_exit h1). unfold on_p. fields. rewrite K'. cbn [on_head].
    conjuncts.
  - rewrite (p_poll_head w4 h1 (children w) K'). rewrite Q1.
    exists (Popen_exit (snd (poll h1))). unfold final_status.
    destruct (truthy (polled c)) eqn:Ht.
    + destruct (polled c) as [code|] eqn:Hp; [|discriminate].
      match goal with
      | |- context [p_poll ?w5] =>
          rewrite (p_poll_head w5 (snd (poll h1)) (children w))
            by reflexivity
      end.
      rewrite (poll_cached _ code Q6). unfold on_p. fields. cbn [on_head].
      conjuncts.
    + unfold on_p. fields. cbn [on_head].
      conjuncts.
Qed.

(** ** The thread body *)

Lemma run_prologue_spec (o : oracle) (filename : string) (w : world)
    (cmd : list string) :
  fst (_build_script_command filename w) = inr cmd ->
  exists w1,
    run_prologue o filename w = (inr (cmd, clock o (clock_reads w)), w1) /\
    _file_arg w1 = _file_arg w /\
    _status_label w1 = "Status: Running" /\
    _run_button w1 = _run_button w /\
    _run_button_command w1 = _run_button_command w /\
    _cancel_pressed w1 = false /\
    threads w1 = threads w /\
    clock_reads w1 = S (clock_reads w) /\
    children w1 = children w /\
    trace w1 = (trace w ++ [StatusUpdate (Some "Running") (Some 0)])%list.
Proof.
  intros H.
  rewrite <- (build_script_command_file_arg filename w
                (set_cancel_pressed false w) eq_refl) in H.
  pose proof (build_script_command_world filename (set_cancel_pressed false w))
    as Hw.
  unfold run_prologue. run_monad.
  destruct (_build_script_command filename (set_cancel_pressed false w))
    as [r w0].
  cbn [fst snd] in H, Hw. subst r w0. unfold_gui.
  eexists. split; [reflexivity|]. fields. repeat split.
Qed.

(** A run whose child cannot be spawned: the exception of [Popen] leaves
    the thread after the first status update. *)
Lemma run_script_spawn_error (o : oracle) (filename : string) (w : world)
    (cmd : list string) (e : exn) :
  fst (_build_script_command filename w) = inr cmd ->
  spawn o cmd = inl e ->
  exists n : nat,
    let res := _run_script o filename w in
    fst res = inl e /\
    _status_label (snd res) = "Status: Running" /\
    _run_button (snd res) = _run_button w /\
    children (snd res) = children w /\
    threads (snd res) = (threads w + n)%nat /\
    trace (snd res) =
      (trace w ++ StatusUpdate (Some "Running") (Some 0)
         :: repeat ThreadStart n)%list.
Proof.
  intros Hb Hs.
  destruct (run_prologue_spec o filename w cmd Hb)
    as (w1 & E1 & A1 & S1 & B1 & M1 & F1 & T1 & C1 & K1 & L1).
  unfold _run_script. run_monad. rewrite E1. cbn [fst snd].
  unfold controlling_thread. run_monad.
  destruct (controlling_thread_effect (ui_spawn o) w1)
    as (P2 & C2 & K2 & F2 & n & T2 & L2 & _).
  cbv zeta in *. panel P2.
  rewrite (run_child_spawn_error o cmd _ _ e Hs). cbn [fst snd].
  exists n. conjuncts.
  rewrite L2, L1, <- app_assoc. reflexivity.
Qed.

(** A run whose child is spawned. *)
Lemma run_script_spawned (o : oracle) (filename : string) (w : world)
    (cmd : list string) (c : process) :
  fst (_build_script_command filename w) = inr cmd ->
  spawn o cmd = inr c ->
  exists (n : nat) (ls : list string) (cancelled : bool) (r : exn + string)
         (h : Popen),
    let res := _run_script o filename w in
    let t0 := clock_reads w in
    let start_time := clock o t0 in
    let before :=
      (StatusUpdate (Some "Running") (Some 0) :: repeat ThreadStart n
         ++ Spawn cmd :: line_events (clock o) start_time (S t0) ls
         ++ cancel_events cancelled)%list in
    loop_exit (output c) ls r cancelled /\
    match r with
    | inl e =>
        fst res = inl e /\
        _status_label (snd res) = "Status: Running" /\
        _run_button (snd res) = DISABLED /\
        trace (snd res) = (trace w ++ before)%list
    | inr exit_status =>
        let label := final_status exit_status (polled c) in
        fst res = inr tt /\
        _status_label (snd res) = "Status: " ++ label /\
        _run_button (snd res) = NORMAL /\
        trace (snd res) =
          (trace w ++ before ++
             [StatusUpdate (Some label)
                (Some (clock o (S t0 + length ls) - start_time))])%list
    end /\
    children (snd res) = h :: children w /\
    released h /\ args h = cmd /\ child h = c /\
    terminate_calls h = (if cancelled then 1 else 0)%nat /\
    threads (snd res) = (threads w + n)%nat /\
    (cancelled = true ->
       cancel_requested (ui_spawn o) = true \/
       exists j, (j < length ls)%nat /\ cancel_requested (ui_line o j) = true) /\
    (cancelled = false ->
       forall j, (j < length ls)%nat ->
                 cancel_requested (ui_spawn o) = false /\
                 cancel_requested (ui_line o j) = false).
Proof.
  intros Hb Hs.
  destruct (run_prologue_spec o filename w cmd Hb)
    as (w1 & E1 & A1 & S1 & B1 & M1 & F1 & T1 & C1 & K1 & L1).
  unfold _run_script. run_monad. rewrite E1. cbn [fst snd].
  unfold controlling_thread. run_monad. cbn beta iota.
  destruct (controlling_thread_effect (ui_spawn o) w1)
    as (P2 & C2 & K2 & F2 & n & T2 & L2 & _).
  cbv zeta in *. panel P2. rewrite F1 in F2. cbn [orb] in F2.
  set (w2 := fold_left ui_step (ui_spawn o) w1) in *.
  destruct (run_child_spec o cmd (clock o (clock_reads w)) w2 c Hs)
    as (ls & cancelled & r & h & E & R & A3 & S3 & B3 & M3 & T3 & C3 & K3
        & Hrel & Hargs & Hchild & Hterm & L3 & R2 & R3).
  cbv zeta in *.
  destruct (run_child o cmd (clock o (clock_reads w)) w2) as [r3 w3].
  cbn [fst snd] in *. subst r3.
  exists n, ls, cancelled, r, h.
  split; [exact E|]. rewrite F2 in R2, R3.
  assert (HL : trace w3 =
    (trace w ++ StatusUpdate (Some "Running") (Some 0) :: repeat ThreadStart n
       ++ Spawn cmd :: line_events (clock o) (clock o (clock_reads w))
                         (S (clock_reads w)) ls
       ++ cancel_events cancelled)%list).
  { rewrite L3, L2, L1, C2, C1, <- !app_assoc. reflexivity. }
  destruct r as [e | exit_status].
  - cbn beta iota. cbn [fst snd]. conjuncts.
  - cbn beta iota.
    destruct (controlling_thread_effect (ui_exit o) w3)
      as (P4 & C4 & K4 & F4 & n4 & T4 & L4 & D4).
    cbv zeta in *. panel P4. specialize (D4 B3). subst n4.
    rewrite Nat.add_0_r in T4. cbn [repeat] in L4. rewrite app_nil_r in L4.
    unfold run_epilogue. unfold_gui. fields.
    conjuncts.
    rewrite L4, HL, C4, C3, C2, C1, <- !app_assoc. cbn [app].
    rewrite <- !app_assoc. reflexivity.
Qed.


(** ** The ways out of the output loop *)

Lemma loop_exit_status (stdout : list (exn + string)) (ls : list string)
    (exit_status : string) (cancelled : bool) :
  loop_exit stdout ls (inr exit_status) cancelled ->
  (exit_status = "Done" /\ cancelled = false /\ stdout = map inr ls) \/
  (exit_status = "Halted" /\ cancelled = true /\ ls <> []).
Proof.
  intros E. inversion E; subst; [left | right]; repeat split; assumption.
Qed.

Lemma loop_exit_raise (stdout : list (exn + string)) (ls : list string)
    (e : exn) (cancelled : bool) :
  loop_exit stdout ls (inl e) cancelled ->
  cancelled = false /\ In (inl e) stdout.
Proof.
  intros E. inversion E; subst. split; [reflexivity|].
  apply in_or_app. right. left. reflexivity.
Qed.

Lemma truthy_code (rc : option Z) :
  truthy rc = true -> exists code : Z, rc = Some code /\ code <> 0%Z.
Proof.
  destruct rc as [code|]; cbn; [|discriminate].
  intros H. exists code. split; [reflexivity|].
  intros ->. discriminate.
Qed.

Lemma map_inr_inj (A B : Type) (l l' : list B) :
  map (@inr A B) l = map (@inr A B) l' -> l = l'.
Proof.
  revert l'. induction l as [|x l IH]; intros [|y l'] H; cbn in H;
    try discriminate; [reflexivity|].
  injection H as -> H. f_equal. apply IH, H.
Qed.

(** A run whose output is read to its end with no cancellation confirmed
    before a line was read: the loop has read every line and was left at end
    of file. *)
Lemma loop_exit_uncancelled (o : oracle) (lines ls : list string)
    (r : exn + string) (cancelled : bool) :
  loop_exit (map inr lines) ls r cancelled ->
  cancel_requested (ui_spawn o) = false ->
  (forall j, (j < length lines)%nat -> cancel_requested (ui_line o j) = false) ->
  (cancelled = true ->
     cancel_requested (ui_spawn o) = true \/
     exists j, (j < length ls)%nat /\ cancel_requested (ui_line o j) = true) ->
  r = inr "Done" /\ cancelled = false /\ ls = lines.
Proof.
  intros E H0 H1 R2. inversion E as [He | rest He Hn | e rest He]; subst.
  - repeat split. symmetry. apply (map_inr_inj exn), He.
  - exfalso. destruct (R2 eq_refl) as [R | (j & Hj & R)]; [congruence|].
    rewrite H1 in R; [discriminate|].
    apply (f_equal (@length _)) in He.
    rewrite length_app, !length_map in He. lia.
  - exfalso.
    assert (Hin : In (@inl exn string e) (map inr lines)).
    { rewrite He. apply in_or_app. right. left. reflexivity. }
    apply in_map_iff in Hin. destruct Hin as (x & Hx & _). discriminate.
Qed.

(** ** The events of a run *)

Lemma run_events_trace (w w' : world) (evs : list event) :
  trace w' = (trace w ++ evs)%list ->
  skipn (length (trace w)) (trace w') = evs.
Proof.
  intros ->. rewrite skipn_app, skipn_all, Nat.sub_diag. reflexivity.
Qed.

(** The events of a run whose child is spawned, with how the loop was
    left. *)
Lemma run_events_spawned (o : oracle) (filename : string) (w : world)
    (cmd : list string) (c : process) :
  fst (_build_script_command filename w) = inr cmd ->
  spawn o cmd = inr c ->
  exists (n : nat) (ls : list string) (cancelled : bool) (r : exn + string),
    loop_exit (output c) ls r cancelled /\
    run_events o filename w =
      spawned_events o (clock_reads w) n cmd ls cancelled
        match r with
        | inl _ => None
        | inr exit_status => Some (final_status exit_status (polled c))
        end /\
    fst (_run_script o filename w) = match r with
                                     | inl e => inl e
                                     | inr _ => inr tt
                                     end /\
    (cancelled = true ->
       cancel_requested (ui_spawn o) = true \/
       exists j, (j < length ls)%nat /\ cancel_requested (ui_line o j) = true) /\
    (cancelled = false ->
       forall j, (j < length ls)%nat ->
                 cancel_requested (ui_spawn o) = false /\
                 cancel_requested (ui_line o j) = false).
Proof.
  intros Hb Hs.
  destruct (run_script_spawned o filename w cmd c Hb Hs)
    as (n & ls & cancelled & r & h & E & R & _ & _ & _ & _ & _ & _ & R2 & R3).
  exists n, ls, cancelled, r. cbv zeta in R.
  split; [exact E|]. unfold run_events, spawned_events.
  destruct r as [e | exit_status].
  - destruct R as (Rr & _ & _ & Rt). split; [|auto].
    apply run_events_trace. rewrite Rt, app_nil_r. reflexivity.
  - destruct R as (Rr & _ & _ & Rt). split; [|auto].
    apply run_events_trace. rewrite Rt. f_equal. cbn [app]. f_equal.
    rewrite <- !app_assoc. cbn [app]. rewrite <- !app_assoc. reflexivity.
Qed.

(** The three shapes of the events of a run. *)
Lemma run_events_cases (o : oracle) (filename : string) (w : world) :
  run_events o filename w = [] \/
  (exists n : nat,
     run_events o filename w =
       StatusUpdate (Some "Running") (Some 0) :: repeat ThreadStart n) \/
  (exists (n : nat) (cmd : list string) (ls : list string) (cancelled : bool)
          (closing : option string),
     run_events o filename w =
       spawned_events o (clock_reads w) n cmd ls cancelled closing).
Proof.
  destruct (fst (_build_script_command filename w)) as [e | cmd] eqn:Hb.
  - left. unfold run_events.
    rewrite (run_script_unsupported o filename w e Hb). cbn [snd]. fields.
    apply skipn_all.
  - destruct (spawn o cmd) as [e | c] eqn:Hs.
    + right. left.
      destruct (run_script_spawn_error o filename w cmd e Hb Hs)
        as (n & _ & _ & _ & _ & _ & L).
      exists n. apply run_events_trace, L.
    + right. right.
      destruct (run_events_spawned o filename w cmd c Hb Hs)
        as (n & ls & cancelled & r & _ & L & _).
      eexists n, cmd, ls, cancelled, _. exact L.
Qed.

(** A cancellation confirmed before one of the lines is read, in a run that
    reads its output without error: the loop is left by the [break] after at
    least one line, the termination request and the notice follow the lines
    read, and the final label is the one of line 270 as lines 272-273 leave
    it: 'Halted' when the child has not exited yet, or has exited with 0. *)
Lemma cancel_honoured (o : oracle) (filename : string) (w : world)
    (cmd : list string) (c : process) (lines : list string) (j : nat) :
  fst (_build_script_command filename w) = inr cmd ->
  spawn o cmd = inr c ->
  output c = map inr lines ->
  (j < length lines)%nat ->
  cancel_requested (ui_spawn o) = true \/
  cancel_requested (ui_line o j) = true ->
  exists (n : nat) (ls : list string) (rest : list string),
    lines = (ls ++ rest)%list /\ ls <> [] /\
    fst (_run_script o filename w) = inr tt /\
    run_events o filename w =
      spawned_events o (clock_reads w) n cmd ls true
        (Some (final_status "Halted" (polled c))) /\
    (polled c = None \/ polled c = Some 0%Z ->
     final_status "Halted" (polled c) = "Halted").
Proof.
  intros Hb Hs Ho Hj Hreq.
  destruct (run_events_spawned o filename w cmd c Hb Hs)
    as (n & ls & cancelled & r & E & L & Rr & _ & R3).
  rewrite Ho in E.
  inversion E as [He | rest He Hn | e rest He]; subst.
  - exfalso. apply (map_inr_inj exn) in He. subst ls.
    destruct (R3 eq_refl j Hj) as [H0 H1]. destruct Hreq; congruence.
  - assert (Hr : exists rest', rest = map inr rest' /\
                               lines = (ls ++ rest')%list).
    { clear - He. revert lines He.
      induction ls as [|l ls IH]; intros lines He; cbn in He.
      - exists lines. split; [symmetry; exact He | reflexivity].
      - destruct lines as [|x lines]; cbn in He; [discriminate|].
        injection He as -> He. destruct (IH lines He) as (rest' & -> & ->).
        exists rest'. split; reflexivity. }
    destruct Hr as (rest' & _ & ->).
    exists n, ls, rest'. repeat split; try assumption.
    intros [-> | ->]; reflexivity.
  - exfalso.
    assert (Hin : In (@inl exn string e) (map inr lines)).
    { rewrite He. apply in_or_app. right. left. reflexivity. }
    apply in_map_iff in Hin. destruct Hin as (x & Hx & _). discriminate.
Qed.

(** ** Clicks on a disabled Run button *)




(** ** Cancel requests made twice *)




(** ** Counting in the events *)

Ltac norm_app :=
  repeat (progress (cbn [app]) || rewrite <- app_assoc).

Lemma outputs_app (l1 l2 : list event) :
  outputs (l1 ++ l2) = (outputs l1 ++ outputs l2)%list.
Proof. apply flat_map_app. Qed.

Lemma outputs_thread_starts (n : nat) : outputs (repeat ThreadStart n) = [].
Proof. induction n; [reflexivity | exact IHn]. Qed.

Lemma outputs_line_events (clk : nat -> Q) (st : Q) (ls : list string) :
  forall t : nat, outputs (line_events clk st t ls) = ls.
Proof.
  induction ls as [|l ls IH]; intros t; cbn; [reflexivity|].
  f_equal. apply IH.
Qed.

(** The events of the [i]-th line inside the events of all lines. *)
Lemma line_events_nth (clk : nat -> Q) (st : Q) (ls : list string) :
  forall (t i : nat) (l : string),
  nth_error ls i = Some l ->
  exists post : list event,
    line_events clk st t ls =
      (line_events clk st t (firstn i ls)
         ++ OutputEvent l :: StatusUpdate None (Some (clk (t + i)%nat - st))
         :: post)%list.
Proof.
  induction ls as [|x ls IH]; intros t [|i] l H; cbn in H; try discriminate.
  - injection H as ->. rewrite Nat.add_0_r. eexists. reflexivity.
  - destruct (IH (S t) i l H) as (post & E). exists post.
    cbn [firstn line_events]. rewrite E, Nat.add_succ_r. reflexivity.
Qed.

Lemma terminate_requests_app (l1 l2 : list event) :
  terminate_requests (l1 ++ l2)
  = (terminate_requests l1 + terminate_requests l2)%nat.
Proof. unfold terminate_requests. rewrite filter_app. apply length_app. Qed.

Lemma terminate_requests_thread_starts (n : nat) :
  terminate_requests (repeat ThreadStart n) = 0%nat.
Proof. induction n; [reflexivity | exact IHn]. Qed.

Lemma terminate_requests_line_events (clk : nat -> Q) (st : Q)
    (ls : list string) :
  forall t : nat, terminate_requests (line_events clk st t ls) = 0%nat.
Proof.
  induction ls as [|l ls IH]; intros t; [reflexivity|]. apply (IH (S t)).
Qed.

Lemma terminate_requests_spawned (o : oracle) (t0 n : nat)
    (cmd : list string) (ls : list string) (cancelled : bool)
    (closing : option string) :
  terminate_requests (spawned_events o t0 n cmd ls cancelled closing)
  = (if cancelled then 1 else 0)%nat.
Proof.
  unfold spawned_events.
  change (terminate_requests (StatusUpdate ?s ?t :: ?l))
    with (terminate_requests l).
  rewrite terminate_requests_app, terminate_requests_thread_starts.
  change (terminate_requests (Spawn cmd :: ?l)) with (terminate_requests l).
  rewrite !terminate_requests_app, terminate_requests_line_events.
  destruct cancelled, closing; reflexivity.
Qed.

Lemma elapsed_times_app (l1 l2 : list event) :
  elapsed_times (l1 ++ l2) = (elapsed_times l1 ++ elapsed_times l2)%list.
Proof. apply flat_map_app. Qed.

Lemma elapsed_times_thread_starts (n : nat) :
  elapsed_times (repeat ThreadStart n) = [].
Proof. induction n; [reflexivity | exact IHn]. Qed.

Lemma elapsed_times_line_events (clk : nat -> Q) (st : Q) (ls : list string) :
  forall t : nat,
  elapsed_times (line_events clk st t ls)
  = map (fun i => clk i - st) (seq t (length ls)).
Proof.
  induction ls as [|l ls IH]; intros t; cbn; [reflexivity|].
  f_equal. apply IH.
Qed.

Lemma elapsed_times_cancel_events (cancelled : bool) :
  elapsed_times (cancel_events cancelled) = [].
Proof. destruct cancelled; reflexivity. Qed.

(** The elapsed times of a run whose child is spawned: zero, then the
    successive readings of the clock less the first one. *)
Lemma elapsed_times_spawned (o : oracle) (t0 n : nat) (cmd : list string)
    (ls : list string) (cancelled : bool) (closing : option string) :
  exists m : nat,
    elapsed_times (spawned_events o t0 n cmd ls cancelled closing)
    = 0 :: map (fun i => clock o i - clock o t0) (seq (S t0) m).
Proof.
  unfold spawned_events.
  change (elapsed_times (StatusUpdate (Some "Running") (Some 0) :: ?l))
    with (0 :: elapsed_times l).
  rewrite elapsed_times_app, elapsed_times_thread_starts. cbn [app].
  change (elapsed_times (Spawn cmd :: ?l)) with (elapsed_times l).
  rewrite !elapsed_times_app, elapsed_times_line_events,
    elapsed_times_cancel_events. cbn [app].
  destruct closing as [label|].
  - exists (S (length ls)). rewrite seq_S, map_app. reflexivity.
  - exists (length ls). cbn. rewrite app_nil_r. reflexivity.
Qed.

(** ** Clocks *)

Section MonotoneClock.

Variable clk : nat -> Q.

Variable t0 : nat.

Hypothesis clk_monotone : monotone_clock clk.

(** Under a clock that is never set back, the readings made from [a] on,
    less the reading [t0] made before them, are non-negative and in
    non-decreasing order. *)
Lemma elapsed_sorted (m : nat) :
  forall a : nat, (t0 <= a)%nat ->
  StronglySorted Qle (map (fun i => clk i - clk t0) (seq a m)) /\
  Forall (Qle 0) (map (fun i => clk i - clk t0) (seq a m)) /\
  Forall (Qle (clk a - clk t0)) (map (fun i => clk i - clk t0) (seq a m)).
Proof.
  induction m as [|m IH]; intros a Ha; cbn [seq map].
  - repeat split; constructor.
  - destruct (IH (S a) (le_S _ _ Ha)) as (S1 & P1 & B1).
    assert (H0 : clk t0 <= clk a) by (apply clk_monotone, Ha).
    assert (H1 : clk a <= clk (S a)) by (apply clk_monotone; lia).
    assert (B2 : Forall (Qle (clk a - clk t0))
                   (map (fun i => clk i - clk t0) (seq (S a) m))).
    { eapply Forall_impl; [|exact B1]. cbn. intros x Hx. lra. }
    repeat split.
    + constructor; assumption.
    + constructor; [lra | exact P1].
    + constructor; [lra | exact B2].
Qed.

End MonotoneClock.

Lemma sorted_last (l : list Q) (t : Q) :
  StronglySorted Qle (l ++ [t]) -> Forall (fun x => x <= t) l.
Proof.
  induction l as [|x l IH]; cbn; intros H; [constructor|].
  apply StronglySorted_inv in H. destruct H as [Hs Hf]. constructor.
  - apply Forall_app in Hf. destruct Hf as [_ Hf].
    apply Forall_inv in Hf. exact Hf.
  - apply IH, Hs.
Qed.

Lemma sorted_map (A B : Type) (R : A -> A -> Prop) (R' : B -> B -> Prop)
    (f : A -> B) (l : list A) :
  (forall x y, R x y -> R' (f x) (f y)) ->
  StronglySorted R l -> StronglySorted R' (map f l).
Proof.
  intros Hf H. induction H as [|x l Hs IH Hx]; cbn; constructor.
  - exact IH.
  - apply Forall_map. eapply Forall_impl; [|exact Hx]. intros y. apply Hf.
Qed.

Lemma ticking_monotone : monotone_clock ticking.
Proof.
  intros i j H. unfold ticking. rewrite <- Zle_Qle. lia.
Defined.

(** ** The exit status and the final label *)

(** The mapping of lines 253 and 272-273, in a run whose output is read to
    its end and in which no cancellation is observed (none is confirmed
    before a line is read): a child that exits with status 0 gives the final
    label 'Done', and a child found to have exited with a status [c] other
    than 0 when it is polled gives the final label 'Error (c)'; each is the
    label of the last status update of the run. *)
Lemma exit_code_mapping (o : oracle) (filename : string) (w : world)
    (cmd : list string) (c : process) (lines : list string) :
  fst (_build_script_command filename w) = inr cmd ->
  spawn o cmd = inr c ->
  output c = map inr lines ->
  cancel_requested (ui_spawn o) = false ->
  (forall j, (j < length lines)%nat -> cancel_requested (ui_line o j) = false) ->
  let res := _run_script o filename w in
  let last_update (label : string) :=
    exists (pre : list event) (t : Q),
      trace (snd res) = (pre ++ [StatusUpdate (Some label) (Some t)])%list in
  fst res = inr tt /\
  (exit_code c = 0%Z ->
   _status_label (snd res) = "Status: Done" /\ last_update "Done") /\
  (exit_code c <> 0%Z -> exited_when_polled c = true ->
   _status_label (snd res) = "Status: Error (" ++ str_int (exit_code c) ++ ")"
   /\ last_update ("Error (" ++ str_int (exit_code c) ++ ")")).
Proof.
  intros Hb Hs Ho H0 H1.
  destruct (run_script_spawned o filename w cmd c Hb Hs)
    as (n & ls & cancelled & r & h & E & R & _ & _ & _ & _ & _ & _ & R2 & _).
  rewrite Ho in E.
  destruct (loop_exit_uncancelled o lines ls r cancelled E H0 H1 R2)
    as (-> & -> & ->).
  cbv zeta in *. destruct R as (Rr & Rs & _ & Rt).
  split; [exact Rr|]. split.
  - intros Hc.
    assert (Hf : final_status "Done" (polled c) = "Done").
    { unfold final_status, polled. rewrite Hc.
      destruct (exited_when_polled c); reflexivity. }
    rewrite Hf in Rs, Rt. split; [exact Rs|].
    eexists _, _. rewrite Rt, app_assoc. reflexivity.
  - intros Hc He.
    assert (Hf : final_status "Done" (polled c)
                 = "Error (" ++ str_int (exit_code c) ++ ")").
    { unfold final_status, polled. rewrite He. cbn [truthy].
      destruct (Z.eqb_spec (exit_code c) 0) as [Hz | _]; [contradiction|].
      reflexivity. }
    rewrite Hf in Rs, Rt. split; [exact Rs|].
    eexists _, _. rewrite Rt, app_assoc. reflexivity.
Qed.

Example exit_code_3 :
  _status_label (snd (_run_script exits_3 "driver.py" (click_run ready)))
  = "Status: Error (3)".
Proof. reflexivity. Qed.

(** * The claims *)

Ltac excl := first [reflexivity | cbn; lia | assumption].

(** ** C1: what a failure leaves in the status panel *)

(** C1, as the code has it: the thread body handles no exception.  A
    non-zero exit status and an honoured cancellation end the run with a
    final label, 'Done', 'Halted' or 'Error (c)', never 'Running'.  An
    unsupported file type raises before the status is touched: the label of
    before the run stays and nothing is spawned.  An exception of the spawn
    or of a read of the pipe leaves the thread with the status still
    'Running'. *)
Theorem failure_status (o : oracle) (filename : string) (w : world) :
  let res := _run_script o filename w in
  (forall e : exn,
     fst (_build_script_command filename w) = inl e ->
     fst res = inl e /\
     _status_label (snd res) = _status_label w /\
     children (snd res) = children w) /\
  (forall (cmd : list string) (e : exn),
     fst (_build_script_command filename w) = inr cmd ->
     spawn o cmd = inl e ->
     fst res = inl e /\ _status_label (snd res) = "Status: Running") /\
  (forall (cmd : list string) (c : process),
     fst (_build_script_command filename w) = inr cmd ->
     spawn o cmd = inr c ->
     match fst res with
     | inl e =>
         In (inl e) (output c) /\ _status_label (snd res) = "Status: Running"
     | inr _ =>
         _status_label (snd res) <> "Status: Running" /\
         (_status_label (snd res) = "Status: Done" \/
          _status_label (snd res) = "Status: Halted" \/
          exists code : Z,
            polled c = Some code /\ code <> 0%Z /\
            _status_label (snd res) = "Status: Error (" ++ str_int code ++ ")")
     end).
Proof.
  cbv zeta. split; [|split].
  - intros e Hb. rewrite (run_script_unsupported o filename w e Hb).
    repeat split.
  - intros cmd e Hb Hs.
    destruct (run_script_spawn_error o filename w cmd e Hb Hs)
      as (n & R & S & _).
    split; assumption.
  - intros cmd c Hb Hs.
    destruct (run_script_spawned o filename w cmd c Hb Hs)
      as (n & ls & cancelled & r & h & E & R & _).
    cbv zeta in R. destruct r as [e | exit_status].
    + destruct R as (-> & S & _). split; [|exact S].
      apply (loop_exit_raise _ _ _ _ E).
    + destruct R as (-> & S & _). rewrite S. unfold final_status.
      destruct (truthy (polled c)) eqn:Ht.
      * destruct (truthy_code _ Ht) as (code & Hp & Hn). rewrite Hp.
        split; [discriminate|]. right. right. exists code. auto.
      * destruct (loop_exit_status _ _ _ _ E) as [(-> & _) | (-> & _)].
        -- split; [discriminate | left; reflexivity].
        -- split; [discriminate | right; left; reflexivity].
Qed.

Lemma failure_status_witness :
  _status_label (snd (_run_script exits_3 "notes.txt" (click_run ready)))
  = "Status: Ready" /\
  _status_label (snd (_run_script no_interpreter "driver.py" (click_run ready)))
  = "Status: Running" /\
  _status_label (snd (_run_script exits_3 "driver.py" (click_run ready)))
  <> "Status: Running".
Proof.
  split; [|split].
  - destruct (failure_status exits_3 "notes.txt" (click_run ready))
      as (H & _).
    exact (proj1 (proj2 (H (unrecognized_extension "notes.txt") eq_refl))).
  - destruct (failure_status no_interpreter "driver.py" (click_run ready))
      as (_ & H & _).
    exact (proj2 (H ["python"; "-u"; "driver.py"]
                    (RuntimeExc "FileNotFoundError") eq_refl eq_refl)).
  - destruct (failure_status exits_3 "driver.py" (click_run ready))
      as (_ & _ & H).
    specialize (H ["python"; "-u"; "driver.py"]
                  (prints ["a" ++ newline; "b" ++ newline] 3 true)
                  eq_refl eq_refl).
    exact (proj1 H).
Defined.

(** C1 as stated fails when the child cannot be spawned: the exception of
    [Popen] ends the thread and the status stays 'Running'. *)
Lemma spawn_error_leaves_running :
  let res := _run_script no_interpreter "driver.py" (click_run ready) in
  fst res = inl (RuntimeExc "FileNotFoundError") /\
  _status_label (snd res) = "Status: Running".
Proof. split; reflexivity. Qed.

(** ** C2: the command table *)

(** C2, as the code has it: the input file, once one is selected, is
    appended last to the command of every recognised extension, not only to
    the interpreter invocation.  [_build_script_command] returns
    ['python', '-u', filename] for a name ending in .py or .pyc, [filename]
    for .exe, ['bash', filename] for .sh, each followed by the selected input
    file when there is one, and leaves the object unchanged; for any other
    name it raises the ValueError of an unrecognised extension, and a thread
    that meets it stops before anything is spawned. *)
Theorem build_script_command_table (filename : string) (w : world) :
  (endswith filename ".py" = true \/ endswith filename ".pyc" = true ->
   _build_script_command filename w =
   (inr (["python"; "-u"; filename] ++ input_file w)%list, w)) /\
  (endswith filename ".exe" = true ->
   _build_script_command filename w =
   (inr ([filename] ++ input_file w)%list, w)) /\
  (endswith filename ".sh" = true ->
   _build_script_command filename w =
   (inr (["bash"; filename] ++ input_file w)%list, w)) /\
  (endswith filename ".py" = false -> endswith filename ".pyc" = false ->
   endswith filename ".exe" = false -> endswith filename ".sh" = false ->
   _build_script_command filename w = (inl (unrecognized_extension filename), w)
   /\ forall o : oracle,
        fst (_run_script o filename w) = inl (unrecognized_extension filename)
        /\ children (snd (_run_script o filename w)) = children w
        /\ run_events o filename w = []).
Proof.
  rewrite build_script_command_eq.
  split; [|split; [|split]].
  - intros H. apply orb_true_iff in H. rewrite H. reflexivity.
  - intros H.
    destruct (endswith filename ".py") eqn:E1.
    { exfalso. apply (endswith_exclusive filename ".py" ".exe"); excl. }
    destruct (endswith filename ".pyc") eqn:E2.
    { exfalso. apply (endswith_exclusive filename ".pyc" ".exe"); excl. }
    rewrite H. reflexivity.
  - intros H.
    destruct (endswith filename ".py") eqn:E1.
    { exfalso. apply (endswith_exclusive filename ".py" ".sh"); excl. }
    destruct (endswith filename ".pyc") eqn:E2.
    { exfalso. apply (endswith_exclusive filename ".sh" ".pyc"); excl. }
    destruct (endswith filename ".exe") eqn:E3.
    { exfalso. apply (endswith_exclusive filename ".sh" ".exe"); excl. }
    rewrite H. reflexivity.
  - intros H1 H2 H3 H4. rewrite H1, H2, H3, H4. cbn [orb].
    split; [reflexivity|]. intros o.
    assert (E : fst (_build_script_command filename w)
                = inl (unrecognized_extension filename)).
    { rewrite build_script_command_eq, H1, H2, H3, H4. reflexivity. }
    unfold run_events.
    rewrite (run_script_unsupported o filename w _ E). cbn [fst snd].
    repeat split. fields. apply skipn_all.
Qed.

Lemma build_script_command_table_witness :
  _build_script_command "driver.pyc" selected =
  (inr ["python"; "-u"; "driver.pyc"; "case.xml"], selected) /\
  _build_script_command "tool.exe" ready = (inr ["tool.exe"], ready) /\
  _build_script_command "run.sh" selected =
  (inr ["bash"; "run.sh"; "case.xml"], selected) /\
  fst (_run_script exits_3 "notes.txt" ready)
  = inl (unrecognized_extension "notes.txt").
Proof.
  split; [|split; [|split]].
  - destruct (build_script_command_table "driver.pyc" selected) as (H & _).
    apply H. right. reflexivity.
  - destruct (build_script_command_table "tool.exe" ready) as (_ & H & _).
    apply H. reflexivity.
  - destruct (build_script_command_table "run.sh" selected) as (_ & _ & H & _).
    apply H. reflexivity.
  - destruct (build_script_command_table "notes.txt" ready) as (_ & _ & _ & H).
    apply H; reflexivity.
Defined.

(** C2 as stated fails for an executable once an input file is selected:
    the command is not [filename] alone. *)
Lemma build_exe_with_input_file :
  endswith "tool.exe" ".exe" = true /\
  _file_arg selected = Some "case.xml" /\
  fst (_build_script_command "tool.exe" selected) = inr ["tool.exe"; "case.xml"]
  /\ fst (_build_script_command "tool.exe" selected) <> inr ["tool.exe"].
Proof. repeat split. discriminate. Qed.

(** ** C3: the exit status and the final label *)

(** C3 on a run of the code: no cancellation is requested; the child prints
    a line and exits with status 3, and its pipe reaches end of file before
    the process is gone.  The loop ends, [p.poll()] at line 272 finds the
    child still running and returns [None], so the label stays 'Done'; the
    status 3 is collected by the wait of [Popen.__exit__], after the label
    was chosen.  The run ends with the final label 'Done', not 'Error (3)',
    on a handle whose return code is 3. *)
Theorem exit_status_missed :
  let res := _run_script exits_3_late "driver.py" (click_run ready) in
  fst res = inr tt /\
  map returncode (children (snd res)) = [Some 3%Z] /\
  run_events exits_3_late "driver.py" (click_run ready) =
    [StatusUpdate (Some "Running") (Some 0);
     Spawn ["python"; "-u"; "driver.py"];
     OutputEvent ("a" ++ newline);
     StatusUpdate None (Some (ticking 1 - ticking 0));
     StatusUpdate (Some "Done") (Some (ticking 2 - ticking 0))] /\
  _status_label (snd res) = "Status: Done" /\
  _status_label (snd res) <> "Status: Error (3)".
Proof. repeat split. discriminate. Qed.

(** ** C4: a cancellation in the middle of the output *)

(** C4 on a run of the code: the user confirms the cancel dialog while the
    first line is awaited, and the child, killed by the signal, has exited
    with -15 when line 272 polls it.  The termination request is issued at
    the first checkpoint, no further line is read and the notice is appended
    once, but the final label is 'Error (-15)', not 'Halted': the check of
    the return code after the loop overwrites the label set before the
    [break]. *)
Theorem cancel_mid_stream_label :
  let res := _run_script cancel_mid_stream "driver.py" (click_run ready) in
  fst res = inr tt /\
  run_events cancel_mid_stream "driver.py" (click_run ready) =
    [StatusUpdate (Some "Running") (Some 0);
     Spawn ["python"; "-u"; "driver.py"];
     OutputEvent ("line1" ++ newline);
     StatusUpdate None (Some (ticking 1 - ticking 0));
     TerminateRequest;
     OutputEvent terminated_notice;
     StatusUpdate (Some "Error (-15)") (Some (ticking 2 - ticking 0))] /\
  _status_label (snd res) = "Status: Error (-15)" /\
  _status_label (snd res) <> "Status: Halted".
Proof. repeat split. discriminate. Qed.

(** ** C5: a second start *)




(** ** C6: the order of the events *)

(** C6: in every run whose child is spawned, the lines shown are the first
    lines the child emitted, in the order it emitted them (all of them when
    the run returns without a cancellation), followed only by the notice of
    a cancellation; the status update that carries the elapsed time of a line
    comes directly after the output event of that line, hence not before it;
    and the final status update of a run that returns is its last event,
    after every output event. *)
Theorem output_then_status (o : oracle) (filename : string) (w : world)
    (cmd : list string) (c : process) :
  fst (_build_script_command filename w) = inr cmd ->
  spawn o cmd = inr c ->
  let res := _run_script o filename w in
  let evs := run_events o filename w in
  let elapsed (i : nat) :=
    clock o (S (clock_reads w) + i) - clock o (clock_reads w) in
  exists (ls : list string) (rest : list (exn + string)) (cancelled : bool),
    output c = (map inr ls ++ rest)%list /\
    outputs evs = (ls ++ if cancelled then [terminated_notice] else [])%list /\
    (forall (i : nat) (l : string),
       nth_error ls i = Some l ->
       exists pre post : list event,
         evs = (pre ++ OutputEvent l :: StatusUpdate None (Some (elapsed i))
                  :: post)%list /\
         outputs pre = firstn i ls) /\
    (fst res = inr tt ->
       exists (pre : list event) (label : string) (t : Q),
         evs = (pre ++ [StatusUpdate (Some label) (Some t)])%list /\
         outputs pre = outputs evs) /\
    (fst res = inr tt -> cancelled = false -> rest = []).
Proof.
  intros Hb Hs. cbv zeta.
  destruct (run_events_spawned o filename w cmd c Hb Hs)
    as (n & ls & cancelled & r & E & L & Rr & _).
  assert (Ho : exists rest, output c = (map inr ls ++ rest)%list /\
                 (forall x, r = inr x -> cancelled = false -> rest = [])).
  { inversion E as [He | rest He Hn | e rest He]; subst.
    - exists []. rewrite app_nil_r. auto.
    - exists rest. split; [exact He | discriminate].
    - exists (inl e :: rest). split; [exact He | discriminate]. }
  destruct Ho as (rest & Ho & Hrest).
  exists ls, rest, cancelled. rewrite L, Rr. unfold spawned_events.
  split; [exact Ho|]. split; [|split; [|split]].
  - change (outputs (?e :: ?l)) with (outputs l) at 1.
    rewrite outputs_app, outputs_thread_starts. cbn [app].
    change (outputs (Spawn cmd :: ?l)) with (outputs l).
    rewrite !outputs_app, outputs_line_events. f_equal.
    destruct cancelled, r; reflexivity.
  - intros i l Hi.
    destruct (line_events_nth (clock o) (clock o (clock_reads w)) ls
                (S (clock_reads w)) i l Hi) as (post & El).
    eexists (StatusUpdate (Some "Running") (Some 0) :: repeat ThreadStart n
               ++ Spawn cmd :: line_events (clock o) (clock o (clock_reads w))
                                 (S (clock_reads w)) (firstn i ls))%list,
            _.
    split.
    + rewrite El. norm_app. reflexivity.
    + change (outputs (?e :: ?l)) with (outputs l) at 1.
      rewrite outputs_app, outputs_thread_starts. cbn [app].
      change (outputs (Spawn cmd :: ?l)) with (outputs l).
      apply outputs_line_events.
  - destruct r as [e | exit_status]; [discriminate|]. intros _.
    eexists (StatusUpdate (Some "Running") (Some 0) :: repeat ThreadStart n
               ++ Spawn cmd :: line_events (clock o) (clock o (clock_reads w))
                                 (S (clock_reads w)) ls
               ++ cancel_events cancelled)%list, _, _.
    split.
    + norm_app. reflexivity.
    + change (outputs (?e :: ?l)) with (outputs l).
      rewrite !outputs_app. cbn [app].
      change (outputs (Spawn cmd :: ?l)) with (outputs l).
      rewrite !outputs_app. cbn. rewrite app_nil_r. reflexivity.
  - destruct r as [e | exit_status]; [discriminate|]. intros _.
    apply (Hrest exit_status eq_refl).
Qed.

Lemma output_then_status_witness :
  exists (ls : list string) (cancelled : bool),
    outputs (run_events exits_3 "driver.py" (click_run ready))
    = (ls ++ if cancelled then [terminated_notice] else [])%list.
Proof.
  destruct (output_then_status exits_3 "driver.py" (click_run ready)
              ["python"; "-u"; "driver.py"]
              (prints ["a" ++ newline; "b" ++ newline] 3 true)
              eq_refl eq_refl) as (ls & rest & cancelled & _ & H & _).
  exists ls, cancelled. exact H.
Defined.

(** ** C7: a repeated cancel request *)



(** ** C8: the elapsed times *)

(** C8, as the code has it: the elapsed time is the difference of two
    readings of the wall clock [time.time()].  Provided the clock is not set
    back during the run (each reading is at least the readings before it),
    the elapsed times carried by the status updates of a run, the first one of
    zero included, are non-decreasing, and the last one is greater than or
    equal to every one before it; so are the whole seconds the panel shows
    for them. *)
Theorem elapsed_times_monotone (o : oracle) (filename : string) (w : world) :
  monotone_clock (clock o) ->
  StronglySorted Qle (elapsed_times (run_events o filename w)) /\
  (forall (earlier : list Q) (final : Q),
     elapsed_times (run_events o filename w) = (earlier ++ [final])%list ->
     Forall (fun t => t <= final) earlier) /\
  StronglySorted Z.le (map py_round (elapsed_times (run_events o filename w))).
Proof.
  intros Hm.
  assert (H : StronglySorted Qle (elapsed_times (run_events o filename w))).
  { destruct (run_events_cases o filename w)
      as [-> | [(n & ->) | (n & cmd & ls & cancelled & closing & ->)]].
    - constructor.
    - change (elapsed_times (StatusUpdate (Some "Running") (Some 0) :: ?l))
        with (0 :: elapsed_times l).
      rewrite elapsed_times_thread_starts. repeat constructor.
    - destruct (elapsed_times_spawned o (clock_reads w) n cmd ls cancelled
                  closing) as (m & ->).
      destruct (elapsed_sorted (clock o) (clock_reads w) Hm m
                  (S (clock_reads w)) (le_S _ _ (le_n _))) as (S1 & P1 & _).
      constructor; assumption. }
  split; [exact H|]. split.
  - intros earlier final E. rewrite E in H. apply sorted_last, H.
  - apply (sorted_map Q Z Qle Z.le); [apply py_round_monotone | exact H].
Qed.

Lemma elapsed_times_monotone_witness :
  StronglySorted Qle
    (elapsed_times (run_events exits_3 "driver.py" (click_run ready))).
Proof.
  apply (elapsed_times_monotone exits_3 "driver.py" (click_run ready)).
  exact ticking_monotone.
Defined.

(** C8 as stated fails when the wall clock is set back during the run: the
    final elapsed time, 3, is below the elapsed time of the line, 5. *)
Lemma elapsed_time_decreases :
  elapsed_times (run_events clock_set_back "driver.py" (click_run ready))
  = [0; set_back 1 - set_back 0; set_back 2 - set_back 0] /\
  set_back 2 - set_back 0 < set_back 1 - set_back 0 /\
  ~ StronglySorted Qle
      (elapsed_times (run_events clock_set_back "driver.py" (click_run ready))).
Proof.
  assert (E : elapsed_times
                (run_events clock_set_back "driver.py" (click_run ready))
              = [0; set_back 1 - set_back 0; set_back 2 - set_back 0])
    by (vm_compute; reflexivity).
  split; [exact E|]. split; [reflexivity|]. rewrite E.
  intros H. apply StronglySorted_inv in H. destruct H as [H _].
  apply StronglySorted_inv in H. destruct H as [_ H].
  apply Forall_inv in H. revert H. apply Qlt_not_le. reflexivity.
Qed.

(** ** C9: release of the child and of its pipe *)

(** C9: on every way out of the thread body (the output read to its end,
    an exit status that is not zero, a cancellation, a read of the pipe that
    raises, also a failure before the spawn) the run leaves at most one new
    handle, and that handle has its pipe closed and its child reaped: when no
    handle was open before the run, none is open after it. *)
Theorem child_released_on_every_exit (o : oracle) (filename : string)
    (w : world) :
  let w' := snd (_run_script o filename w) in
  (children w' = children w \/
   exists h : Popen, children w' = h :: children w /\ released h) /\
  (Forall released (children w) -> Forall released (children w')).
Proof.
  cbv zeta.
  assert (H : children (snd (_run_script o filename w)) = children w \/
              exists h : Popen,
                children (snd (_run_script o filename w)) = h :: children w /\
                released h).
  { destruct (fst (_build_script_command filename w)) as [e | cmd] eqn:Hb.
    - rewrite (run_script_unsupported o filename w e Hb). left. reflexivity.
    - destruct (spawn o cmd) as [e | c] eqn:Hs.
      + destruct (run_script_spawn_error o filename w cmd e Hb Hs)
          as (n & _ & _ & _ & K & _).
        left. exact K.
      + destruct (run_script_spawned o filename w cmd c Hb Hs)
          as (n & ls & cancelled & r & h & _ & _ & K & R & _).
        right. exists h. split; assumption. }
  split; [exact H|]. intros F.
  destruct H as [-> | (h & -> & R)]; [exact F|].
  constructor; assumption.
Qed.

Lemma child_released_on_every_exit_witness :
  Forall released (children (snd (_run_script cancel_mid_stream "driver.py"
                                    (click_run ready)))).
Proof.
  apply (child_released_on_every_exit cancel_mid_stream "driver.py"
           (click_run ready)).
  constructor.
Defined.

(** ** C10: a missing script *)

(** C10: when [filename] does not exist on disk, [run_script] raises
    FileNotFoundError at once: the object and the world are exactly as
    before, so the Run button is not wired, the event loop is not entered,
    and no subprocess is spawned. *)
Theorem run_script_missing_file (path_exists : string -> bool)
    (filename : string) (requires_input : bool) (w : world) :
  path_exists filename = false ->
  run_script path_exists filename requires_input w =
    (inl (FileNotFoundError ("File " ++ filename ++ " does not exist.")), w)
  /\ let w' := snd (run_script path_exists filename requires_input w) in
     _run_button_command w' = _run_button_command w /\
     _run_button w' = _run_button w /\
     in_mainloop w' = in_mainloop w /\
     children w' = children w /\
     trace w' = trace w.
Proof.
  intros H. unfold run_script. run_monad. rewrite H. cbn. repeat split.
Qed.

Lemma run_script_missing_file_witness :
  run_script (fun _ => false) "gui_test_func.py" false BasicGUI_init =
    (inl (FileNotFoundError "File gui_test_func.py does not exist."),
     BasicGUI_init).
Proof.
  apply (run_script_missing_file (fun _ => false) "gui_test_func.py" false
           BasicGUI_init).
  reflexivity.
Defined.

(** * Further properties of the code *)

(** ** Strings in a row *)

Lemma string_app_assoc (a b c : string) : (a ++ b) ++ c = a ++ (b ++ c).
Proof.
  induction a as [|x a IH]; cbn; [reflexivity | rewrite IH; reflexivity].
Qed.

Lemma string_app_nil_r (a : string) : a ++ "" = a.
Proof.
  induction a as [|x a IH]; cbn; [reflexivity | rewrite IH; reflexivity].
Qed.

Lemma joined_app (l1 l2 : list string) :
  joined (l1 ++ l2) = joined l1 ++ joined l2.
Proof.
  unfold joined. induction l1 as [|x l1 IH]; cbn [app fold_right];
    [reflexivity|].
  rewrite IH. symmetry. apply string_app_assoc.
Qed.

(** ** X1: [write] *)

Lemma write_chars_text (text : string) :
  forall w : world,
  write_chars text w =
  match text with
  | EmptyString => w
  | String _ _ => set_text (_text w ++ text) w
  end.
Proof.
  induction text as [|c rest IH]; intros w; [reflexivity|].
  cbn [write_chars]. rewrite IH. destruct rest as [|c' rest'].
  - reflexivity.
  - unfold set_text. fields. rewrite string_app_assoc. reflexivity.
Qed.

(** X1: [write(text)] inserts the string one character at a time and leaves
    the text widget with the old content followed by the whole of [text],
    the content [write_line(text)] leaves; nothing else of the object
    changes and nothing is logged; an empty string changes nothing at all;
    and writing two strings one after the other is writing them joined. *)
Theorem write_appends_text (text : string) (w : world) :
  fst (write text w) = inr tt /\
  _text (snd (write text w)) = _text w ++ text /\
  _text (snd (write text w)) = _text (snd (write_line text w)) /\
  (text <> "" -> snd (write text w) = set_text (_text w ++ text) w) /\
  snd (write "" w) = w /\
  (forall more : string,
     snd (write (text ++ more) w) = snd (write more (snd (write text w)))).
Proof.
  unfold write, write_line. run_monad. rewrite write_chars_text.
  split; [reflexivity|]. split.
  { destruct text; [symmetry; apply string_app_nil_r | reflexivity]. }
  split.
  { destruct text; [fields; symmetry; apply string_app_nil_r | reflexivity]. }
  split.
  { destruct text; [intros H; contradiction H; reflexivity | reflexivity]. }
  split; [reflexivity|].
  intros more. rewrite !write_chars_text.
  destruct text as [|c rest]; [reflexivity|].
  destruct more as [|c' more'].
  - cbn [append]. rewrite string_app_nil_r. reflexivity.
  - unfold set_text. fields.
    rewrite (string_app_assoc (_text w) (String c rest) (String c' more')).
    reflexivity.
Qed.

Lemma write_appends_text_witness :
  snd (write ("a" ++ newline) ready)
  = set_text ("a" ++ newline) ready.
Proof.
  refine (proj1 (proj2 (proj2 (proj2
            (write_appends_text ("a" ++ newline) ready)))) _).
  discriminate.
Defined.

(** ** X2: the chosen file and the command *)

Lemma get_file_to_run_chosen (chosen : string) (w : world) :
  chosen <> "" ->
  get_file_to_run chosen w =
  (inr tt,
   log (StatusUpdate (Some "Ready") None)
     (set_status_label "Status: Ready"
        (set_run_button NORMAL (set_file_arg (Some chosen) w)))).
Proof.
  intros H. unfold get_file_to_run.
  destruct (String.eqb_spec chosen "") as [E | _]; [contradiction|].
  reflexivity.
Qed.

Lemma get_file_to_run_dismissed (w : world) :
  get_file_to_run "" w = (inr tt, w).
Proof. reflexivity. Qed.

(** X2: once a file is chosen in the dialog, the command built for any
    recognised script is the launcher part followed by that file and nothing
    more, so the chosen file is the last argument; a second choice replaces
    the first instead of adding to it; and a dismissed dialog leaves the
    object, hence the command, as it was. *)
Theorem chosen_file_is_last_argument (chosen filename : string) (w : world)
    (cmd : list string) :
  chosen <> "" ->
  fst (_build_script_command filename (snd (get_file_to_run chosen w)))
  = inr cmd ->
  (exists launcher : list string,
     cmd = (launcher ++ [chosen])%list /\
     (launcher = ["python"; "-u"; filename] \/ launcher = [filename] \/
      launcher = ["bash"; filename])) /\
  last cmd "" = chosen /\
  (forall earlier : string,
     fst (_build_script_command filename
            (snd (get_file_to_run chosen (snd (get_file_to_run earlier w)))))
     = inr cmd) /\
  fst (_build_script_command filename
         (snd (get_file_to_run "" (snd (get_file_to_run chosen w)))))
  = inr cmd.
Proof.
  intros Hc Hb. rewrite (get_file_to_run_chosen chosen w Hc) in Hb.
  rewrite build_script_command_eq in Hb. unfold input_file in Hb.
  cbn [fst snd] in Hb. fields.
  assert (Hl : exists launcher : list string,
             cmd = (launcher ++ [chosen])%list /\
             (launcher = ["python"; "-u"; filename] \/ launcher = [filename] \/
              launcher = ["bash"; filename])).
  { destruct (endswith filename ".py" || endswith filename ".pyc").
    { injection Hb as <-. exists ["python"; "-u"; filename].
      split; [reflexivity | auto]. }
    destruct (endswith filename ".exe").
    { injection Hb as <-. exists [filename]. split; [reflexivity | auto]. }
    destruct (endswith filename ".sh"); [|discriminate].
    injection Hb as <-. exists ["bash"; filename].
    split; [reflexivity | auto]. }
  split; [exact Hl|]. split.
  { destruct Hl as (launcher & -> & _). apply last_last. }
  split.
  - intros earlier. rewrite (get_file_to_run_chosen chosen _ Hc).
    rewrite build_script_command_eq. unfold input_file. cbn [fst snd]. fields.
    exact Hb.
  - rewrite get_file_to_run_dismissed.
    rewrite (get_file_to_run_chosen chosen w Hc).
    rewrite build_script_command_eq. unfold input_file. cbn [fst snd]. fields.
    exact Hb.
Qed.

Lemma chosen_file_is_last_argument_witness :
  last ["bash"; "run.sh"; "case.xml"] "" = "case.xml".
Proof.
  refine (proj1 (proj2
            (chosen_file_is_last_argument "case.xml" "run.sh" BasicGUI_init
               ["bash"; "run.sh"; "case.xml"] _ eq_refl))).
  discriminate.
Defined.

(** ** X3: choosing a file while the Run button is disabled *)



(** ** X4: when the Run button can start the script *)



(** ** X5: the RAVEN launcher *)




(** ** X6: a cancellation confirmed after the last line *)

Lemma outputs_spawned (o : oracle) (t0 n : nat) (cmd : list string)
    (ls : list string) (cancelled : bool) (closing : option string) :
  outputs (spawned_events o t0 n cmd ls cancelled closing)
  = (ls ++ if cancelled then [terminated_notice] else [])%list.
Proof.
  unfold spawned_events.
  change (outputs (StatusUpdate ?s ?t :: ?l)) with (outputs l).
  rewrite outputs_app, outputs_thread_starts.
  change (outputs (Spawn cmd :: ?l)) with (outputs l).
  rewrite !outputs_app, outputs_line_events. cbn [app]. f_equal.
  destruct cancelled, closing; reflexivity.
Qed.

Lemma p_poll_flag (w : world) :
  _cancel_pressed (snd (p_poll w)) = _cancel_pressed w /\
  _text (snd (p_poll w)) = _text w /\
  trace (snd (p_poll w)) = trace w /\
  exists rc : option Z, fst (p_poll w) = inr rc.
Proof.
  unfold p_poll. destruct (children w) as [|p ps]; [|destruct (poll p)];
    cbn; eauto.
Qed.

(** The cancel flag at the end of a loop that read every line with no
    request observed: set exactly when a request was confirmed while the
    loop waited for the end of the output. *)
Lemma output_loop_flag (o : oracle) (st : Q) (lines : list string) :
  forall (k : nat) (w : world),
  _cancel_pressed w = false ->
  (forall j, (j < length lines)%nat ->
             cancel_requested (ui_line o (k + j)) = false) ->
  _cancel_pressed (snd (output_loop o st k (map inr lines) w))
  = cancel_requested (ui_line o (k + length lines)).
Proof.
  induction lines as [|l lines IH]; intros k w Hf Hl;
    destruct (controlling_thread_effect (ui_line o k) w)
      as (_ & _ & _ & F & _); cbv zeta in F; rewrite Hf in F; cbn [orb] in F;
    cbn [map output_loop length]; unfold_gui.
  - rewrite Nat.add_0_r. exact F.
  - assert (F0 : cancel_requested (ui_line o k) = false).
    { rewrite <- (Nat.add_0_r k). apply Hl. cbn. lia. }
    rewrite F0 in F.
    set (w1 := fold_left ui_step (ui_line o k) w) in *.
    cbn [_cancel_pressed log set_time_elapsed_label set_clock_reads set_text].
    rewrite F. rewrite Nat.add_succ_r. apply (IH (S k)).
    + exact F.
    + intros j Hj. cbn [Nat.add]. rewrite <- Nat.add_succ_r. apply Hl.
      cbn. lia.
Qed.

Lemma run_child_flag (o : oracle) (cmd : list string) (st : Q) (w : world)
    (c : process) (lines : list string) :
  spawn o cmd = inr c ->
  output c = map inr lines ->
  _cancel_pressed w = false ->
  (forall j, (j < length lines)%nat -> cancel_requested (ui_line o j) = false) ->
  _cancel_pressed (snd (run_child o cmd st w))
  = cancel_requested (ui_line o (length lines)).
Proof.
  intros Hs Ho Hf Hl. unfold run_child, Popen_new. run_monad. rewrite Hs.
  cbn [child output]. rewrite Ho.
  match goal with
  | |- context [output_loop o st 0 (map inr lines) ?w3] =>
      assert (L := output_loop_flag o st lines 0 w3 Hf Hl);
      destruct (output_loop o st 0 (map inr lines) w3) as [r w4]
  end.
  cbn [snd Nat.add] in L. destruct r as [e | exit_status].
  { unfold on_p. fields. exact L. }
  destruct (p_poll_flag w4) as (P1 & _ & _ & rc & P2).
  destruct (p_poll w4) as [r5 w5]. cbn [fst snd] in P1, P2. subst r5.
  destruct (truthy rc).
  - destruct (p_poll_flag w5) as (P3 & _ & _ & rc' & P4).
    destruct (p_poll w5) as [r6 w6]. cbn [fst snd] in P3, P4. subst r6.
    unfold on_p. fields. congruence.
  - unfold on_p. fields. congruence.
Qed.

Lemma run_script_flag (o : oracle) (filename : string) (w : world)
    (cmd : list string) (c : process) (lines : list string) :
  fst (_build_script_command filename w) = inr cmd ->
  spawn o cmd = inr c ->
  output c = map inr lines ->
  cancel_requested (ui_spawn o) = false ->
  (forall j, (j < length lines)%nat -> cancel_requested (ui_line o j) = false) ->
  fst (_run_script o filename w) = inr tt ->
  _cancel_pressed (snd (_run_script o filename w))
  = cancel_requested (ui_line o (length lines)) || cancel_requested (ui_exit o).
Proof.
  intros Hb Hs Ho H0 H1.
  destruct (run_prologue_spec o filename w cmd Hb)
    as (w1 & E1 & _ & _ & _ & _ & F1 & _).
  unfold _run_script. run_monad. rewrite E1. cbn [fst snd].
  unfold controlling_thread. run_monad. cbn beta iota.
  destruct (controlling_thread_effect (ui_spawn o) w1) as (_ & _ & _ & F2 & _).
  cbv zeta in F2. rewrite F1, H0 in F2. cbn [orb] in F2.
  set (w2 := fold_left ui_step (ui_spawn o) w1) in *.
  pose proof (run_child_flag o cmd (clock o (clock_reads w)) w2 c lines
                Hs Ho F2 H1) as F3.
  destruct (run_child o cmd (clock o (clock_reads w)) w2)
    as [[e | exit_status] w3]; cbn [fst snd] in *; [discriminate|].
  intros _.
  destruct (controlling_thread_effect (ui_exit o) w3) as (_ & _ & _ & F4 & _).
  cbv zeta in F4. unfold run_epilogue. unfold_gui. fields.
  rewrite F4, F3. reflexivity.
Qed.

(** X6: a cancellation confirmed only after the last line of the output was
    read (while the loop waits for the end of the output, or while the child
    is waited for) is never acted upon: in a run that reads its output
    without error and sees no request before one of its lines, the flag is
    left set at the end of the run although no termination request was made,
    the handle was never asked to terminate, every line of the child is
    shown with no notice after them, and the final label is the one of an
    undisturbed run. *)
Theorem late_cancel_is_dropped (o : oracle) (filename : string) (w : world)
    (cmd : list string) (c : process) (lines : list string) :
  fst (_build_script_command filename w) = inr cmd ->
  spawn o cmd = inr c ->
  output c = map inr lines ->
  cancel_requested (ui_spawn o) = false ->
  (forall j, (j < length lines)%nat -> cancel_requested (ui_line o j) = false) ->
  let res := _run_script o filename w in
  let evs := run_events o filename w in
  fst res = inr tt /\
  _cancel_pressed (snd res)
  = cancel_requested (ui_line o (length lines)) || cancel_requested (ui_exit o)
  /\
  terminate_requests evs = 0%nat /\
  outputs evs = lines /\
  _status_label (snd res) = "Status: " ++ final_status "Done" (polled c) /\
  exists h : Popen,
    children (snd res) = h :: children w /\ terminate_calls h = 0%nat.
Proof.
  intros Hb Hs Ho H0 H1. cbv zeta.
  destruct (run_script_spawned o filename w cmd c Hb Hs)
    as (n & ls & cancelled & r & h & E & R & K & _ & _ & _ & Htc & _ & R2 & _).
  rewrite Ho in E.
  destruct (loop_exit_uncancelled o lines ls r cancelled E H0 H1 R2)
    as (-> & -> & ->).
  cbv zeta in R. destruct R as (Rr & Rs & _ & Rt).
  assert (L : run_events o filename w =
              spawned_events o (clock_reads w) n cmd lines false
                (Some (final_status "Done" (polled c)))).
  { apply run_events_trace. rewrite Rt. unfold spawned_events. f_equal.
    norm_app. reflexivity. }
  split; [exact Rr|].
  split; [exact (run_script_flag o filename w cmd c lines Hb Hs Ho H0 H1 Rr)|].
  split; [rewrite L; apply terminate_requests_spawned|].
  split; [rewrite L, outputs_spawned; apply app_nil_r|].
  split; [exact Rs|].
  exists h. split; assumption.
Qed.

Lemma late_cancel_is_dropped_witness :
  _cancel_pressed (snd (_run_script cancel_too_late "driver.py"
                          (click_run ready)))
  = cancel_requested (ui_line cancel_too_late 1)
    || cancel_requested (ui_exit cancel_too_late) /\
  terminate_requests (run_events cancel_too_late "driver.py" (click_run ready))
  = 0%nat.
Proof.
  assert (H1 : forall j, (j < length ["a" ++ newline])%nat ->
                         cancel_requested (ui_line cancel_too_late j) = false).
  { intros [|j] Hj; [reflexivity | cbn in Hj; lia]. }
  pose proof (late_cancel_is_dropped cancel_too_late "driver.py"
                (click_run ready) ["python"; "-u"; "driver.py"]
                (prints ["a" ++ newline] 0 true) ["a" ++ newline]
                eq_refl eq_refl eq_refl eq_refl H1) as H.
  cbv zeta in H. split; [exact (proj1 (proj2 H))|].
  exact (proj1 (proj2 (proj2 H))).
Defined.

(** ** X7: what a run does not depend on *)

Lemma without_declined_step (evs : list ui_event) :
  forall w : world,
  fold_left ui_step (without_declined evs) w = fold_left ui_step evs w.
Proof.
  induction evs as [|[[|]|] evs IH]; intros w; cbn; try apply IH.
  reflexivity.
Qed.

Lemma output_loop_ignore_declined (o : oracle) (st : Q)
    (stdout : list (exn + string)) :
  forall (k : nat) (w : world),
  output_loop (ignore_declined o) st k stdout w = output_loop o st k stdout w.
Proof.
  induction stdout as [|[e|l] rest IH]; intros k w; cbn [output_loop];
    unfold_gui; cbn [ui_line ignore_declined clock];
    rewrite without_declined_step; try reflexivity.
  set (w1 := fold_left ui_step (ui_line o k) w). fields.
  destruct (_cancel_pressed w1); [reflexivity | apply IH].
Qed.

Lemma run_child_ignore_declined (o : oracle) (cmd : list string) (st : Q)
    (w : world) :
  run_child (ignore_declined o) cmd st w = run_child o cmd st w.
Proof.
  unfold run_child, Popen_new. run_monad. cbn [spawn ignore_declined].
  destruct (spawn o cmd) as [e | c]; [reflexivity|].
  rewrite output_loop_ignore_declined. reflexivity.
Qed.

(** X7: only the requests confirmed during the run count.  A cancel dialog
    answered before the thread starts, confirmed or not, leaves the run
    exactly as it is without it, because the thread resets the flag first;
    and the dialogs the user declines during the run leave no mark: the run
    without them has the same result, the same final state and the same
    events. *)
Theorem only_requests_confirmed_during_the_run_count (o : oracle)
    (filename : string) (w : world) :
  (forall response : bool,
     _run_script o filename (_ask_cancel response w)
     = _run_script o filename w) /\
  (forall flag : bool,
     _run_script o filename (set_cancel_pressed flag w)
     = _run_script o filename w) /\
  _run_script (ignore_declined o) filename w = _run_script o filename w.
Proof.
  assert (Hflag : forall flag : bool,
            _run_script o filename (set_cancel_pressed flag w)
            = _run_script o filename w).
  { intros flag. unfold _run_script, run_prologue. run_monad. reflexivity. }
  split; [|split; [exact Hflag|]].
  - intros [|]; [apply Hflag | reflexivity].
  - unfold _run_script. run_monad.
    assert (Ep : run_prologue (ignore_declined o) filename w
                 = run_prologue o filename w) by reflexivity.
    rewrite Ep. destruct (run_prologue o filename w) as [[e | [cmd st]] w1];
      [reflexivity|].
    cbn [fst snd ui_spawn ui_exit ignore_declined]. unfold controlling_thread.
    run_monad. cbn beta iota. rewrite without_declined_step.
    rewrite run_child_ignore_declined.
    destruct (run_child o cmd st (fold_left ui_step (ui_spawn o) w1))
      as [[e | exit_status] w3]; [reflexivity|].
    rewrite without_declined_step. reflexivity.
Qed.

(** ** X8: the text widget and the output events *)

Lemma ui_step_text (w : world) (ev : ui_event) : _text (ui_step w ev) = _text w.
Proof.
  destruct ev as [[|]|]; cbn; try reflexivity.
  unfold click_run.
  destruct (_run_button w); [destruct (_run_button_command w)|]; reflexivity.
Qed.

Lemma controlling_thread_text (evs : list ui_event) :
  forall w : world, _text (fold_left ui_step evs w) = _text w.
Proof.
  induction evs as [|ev evs IH]; intros w; cbn [fold_left]; [reflexivity|].
  rewrite IH. apply ui_step_text.
Qed.

Lemma text_follows_refl (w : world) : text_follows w w.
Proof.
  exists []. rewrite app_nil_r. split; [reflexivity|].
  symmetry. apply string_app_nil_r.
Qed.

Lemma text_follows_trans (w1 w2 w3 : world) :
  text_follows w1 w2 -> text_follows w2 w3 -> text_follows w1 w3.
Proof.
  intros (evs1 & T1 & X1) (evs2 & T2 & X2). exists (evs1 ++ evs2)%list.
  rewrite T2, T1, X2, X1, outputs_app, joined_app, app_assoc, string_app_assoc.
  split; reflexivity.
Qed.

Lemma text_follows_quiet (w w' : world) :
  trace w' = trace w -> _text w' = _text w -> text_follows w w'.
Proof.
  intros T X. exists []. rewrite T, X, app_nil_r.
  split; [reflexivity|]. symmetry. apply string_app_nil_r.
Qed.

Lemma keeps_text_ret (A : Type) (a : A) : keeps_text (ret a).
Proof. intros w. apply text_follows_refl. Qed.

Lemma keeps_text_raise (A : Type) (e : exn) : keeps_text (@raise A e).
Proof. intros w. apply text_follows_refl. Qed.

Lemma keeps_text_gets (A : Type) (f : world -> A) : keeps_text (gets f).
Proof. intros w. apply text_follows_refl. Qed.

Lemma keeps_text_bind (A B : Type) (m : M A) (k : A -> M B) :
  keeps_text m -> (forall a : A, keeps_text (k a)) -> keeps_text (bind m k).
Proof.
  intros Hm Hk w. unfold bind. specialize (Hm w).
  destruct (m w) as [[e | a] w1]; cbn [snd] in *; [exact Hm|].
  eapply text_follows_trans; [exact Hm | apply Hk].
Qed.

Lemma keeps_text_finally (A : Type) (body : M A) (cleanup : world -> world) :
  keeps_text body ->
  (forall w, trace (cleanup w) = trace w /\ _text (cleanup w) = _text w) ->
  keeps_text (finally body cleanup).
Proof.
  intros Hb Hc w. unfold finally. specialize (Hb w).
  destruct (body w) as [r w1]. cbn [snd] in *.
  eapply text_follows_trans; [exact Hb|].
  apply text_follows_quiet; apply Hc.
Qed.

Lemma keeps_text_quiet (f : world -> world) :
  (forall w, trace (f w) = trace w /\ _text (f w) = _text w) ->
  keeps_text (act f).
Proof. intros H w. apply text_follows_quiet; apply H. Qed.

Lemma keeps_text_controlling_thread (evs : list ui_event) :
  keeps_text (controlling_thread evs).
Proof.
  intros w. unfold controlling_thread, act. cbn [snd].
  destruct (controlling_thread_effect evs w) as (_ & _ & _ & _ & n & _ & L & _).
  cbv zeta in L. exists (repeat ThreadStart n). split; [exact L|].
  rewrite controlling_thread_text, outputs_thread_starts.
  symmetry. apply string_app_nil_r.
Qed.

Lemma keeps_text_write_line (line : string) : keeps_text (write_line line).
Proof.
  intros w. exists [OutputEvent line]. split; [reflexivity|].
  cbn. rewrite string_app_nil_r. reflexivity.
Qed.

Lemma keeps_text_update_status (status : option string)
    (time_elapsed : option Q) :
  keeps_text (_update_status status time_elapsed).
Proof.
  intros w. exists [StatusUpdate status time_elapsed].
  unfold _update_status, act. cbn [snd].
  destruct status, time_elapsed; cbn; rewrite string_app_nil_r;
    split; reflexivity.
Qed.

Lemma keeps_text_time_time (o : oracle) : keeps_text (time_time o).
Proof. intros w. apply text_follows_quiet; reflexivity. Qed.

Lemma keeps_text_p_terminate : keeps_text p_terminate.
Proof.
  intros w. exists [TerminateRequest]. split; [reflexivity|].
  cbn. rewrite string_app_nil_r. reflexivity.
Qed.

Lemma keeps_text_p_poll : keeps_text p_poll.
Proof.
  intros w. destruct (p_poll_flag w) as (_ & X & T & _).
  apply text_follows_quiet; assumption.
Qed.

Lemma keeps_text_Popen_new (o : oracle) (cmd : list string) :
  keeps_text (Popen_new o cmd).
Proof.
  intros w. unfold Popen_new. destruct (spawn o cmd) as [e | c]; cbn [snd].
  - apply text_follows_refl.
  - exists [Spawn cmd]. split; [reflexivity|].
    cbn. rewrite string_app_nil_r. reflexivity.
Qed.

Ltac keeps_text_steps :=
  repeat first
    [ apply keeps_text_ret | apply keeps_text_raise | apply keeps_text_gets
    | apply keeps_text_controlling_thread | apply keeps_text_write_line
    | apply keeps_text_update_status | apply keeps_text_time_time
    | apply keeps_text_p_terminate | apply keeps_text_p_poll
    | apply keeps_text_Popen_new
    | apply keeps_text_quiet; intro; split; reflexivity
    | apply keeps_text_bind; [|intro] ].

Lemma keeps_text_output_loop (o : oracle) (st : Q)
    (stdout : list (exn + string)) :
  forall k : nat, keeps_text (output_loop o st k stdout).
Proof.
  induction stdout as [|[e | l] rest IH]; intros k; cbn [output_loop];
    keeps_text_steps.
  match goal with |- keeps_text (if ?b then _ else _) => destruct b end.
  - keeps_text_steps.
  - apply IH.
Qed.

Lemma keeps_text_run_child (o : oracle) (cmd : list string) (st : Q) :
  keeps_text (run_child o cmd st).
Proof.
  unfold run_child. apply keeps_text_bind; [apply keeps_text_Popen_new|].
  intros p. apply keeps_text_finally; [|intro; split; reflexivity].
  keeps_text_steps; [apply keeps_text_output_loop|].
  match goal with |- keeps_text (if ?b then _ else _) => destruct b end;
    keeps_text_steps.
Qed.

Lemma keeps_text_run_epilogue (o : oracle) (st : Q) (exit_status : string) :
  keeps_text (run_epilogue o st exit_status).
Proof. unfold run_epilogue. keeps_text_steps. Qed.

(** The prologue ends with the text widget cleared. *)
Lemma run_prologue_text (o : oracle) (filename : string) (w : world)
    (cmd : list string) :
  fst (_build_script_command filename w) = inr cmd ->
  exists w1,
    run_prologue o filename w = (inr (cmd, clock o (clock_reads w)), w1) /\
    _text w1 = "" /\
    trace w1 = (trace w ++ [StatusUpdate (Some "Running") (Some 0)])%list.
Proof.
  intros H.
  rewrite <- (build_script_command_file_arg filename w
                (set_cancel_pressed false w) eq_refl) in H.
  pose proof (build_script_command_world filename (set_cancel_pressed false w))
    as Hw.
  unfold run_prologue. run_monad.
  destruct (_build_script_command filename (set_cancel_pressed false w))
    as [r w0].
  cbn [fst snd] in H, Hw. subst r w0. unfold_gui.
  eexists. split; [reflexivity|]. fields. split; reflexivity.
Qed.

(** X8: after a run whose command could be built, the text widget holds
    exactly the lines shown during that run, in their order, one after the
    other: what an earlier run left there is gone, also when the spawn
    fails or a read raises.  When the command cannot be built, the widget
    keeps what it held and the run has no event. *)
Theorem text_widget_holds_the_output_of_the_run (o : oracle)
    (filename : string) (w : world) :
  let res := _run_script o filename w in
  match fst (_build_script_command filename w) with
  | inr _ => _text (snd res) = joined (outputs (run_events o filename w))
  | inl _ => _text (snd res) = _text w /\ run_events o filename w = []
  end.
Proof.
  cbv zeta. destruct (fst (_build_script_command filename w)) as [e | cmd] eqn:Hb.
  - unfold run_events. rewrite (run_script_unsupported o filename w e Hb).
    cbn [snd]. fields. split; [reflexivity | apply skipn_all].
  - destruct (run_prologue_text o filename w cmd Hb) as (w1 & E1 & X1 & T1).
    assert (Hk : keeps_text
              (controlling_thread (ui_spawn o) ;;
               exit_status <- run_child o cmd (clock o (clock_reads w)) ;;
               controlling_thread (ui_exit o) ;;
               run_epilogue o (clock o (clock_reads w)) exit_status)).
    { apply keeps_text_bind; [apply keeps_text_controlling_thread | intros _].
      apply keeps_text_bind; [apply keeps_text_run_child | intros exit_status].
      apply keeps_text_bind; [apply keeps_text_controlling_thread | intros _].
      apply keeps_text_run_epilogue. }
    destruct (Hk w1) as (evs & T & X).
    assert (E : snd (_run_script o filename w)
                = snd ((controlling_thread (ui_spawn o) ;;
                        exit_status <- run_child o cmd (clock o (clock_reads w)) ;;
                        controlling_thread (ui_exit o) ;;
                        run_epilogue o (clock o (clock_reads w)) exit_status)
                         w1)).
    { unfold _run_script at 1. unfold bind at 1. rewrite E1. reflexivity. }
    unfold run_events. rewrite E.
    rewrite (run_events_trace w _
               (StatusUpdate (Some "Running") (Some 0) :: evs)).
    + rewrite X, X1. reflexivity.
    + rewrite T, T1, <- app_assoc. reflexivity.
Qed.

(** ** X9: the Run button after a run *)

(** A run changes neither the selected file nor the command of the Run
    button. *)
Lemma run_script_frame (o : oracle) (filename : string) (w : world) :
  _file_arg (snd (_run_script o filename w)) = _file_arg w /\
  _run_button_command (snd (_run_script o filename w)) = _run_button_command w.
Proof.
  destruct (fst (_build_script_command filename w)) as [e | cmd] eqn:Hb.
  { rewrite (run_script_unsupported o filename w e Hb). split; reflexivity. }
  destruct (run_prologue_spec o filename w cmd Hb)
    as (w1 & E1 & A1 & _ & _ & M1 & _).
  unfold _run_script. run_monad. rewrite E1. cbn [fst snd].
  unfold controlling_thread. run_monad. cbn beta iota.
  destruct (controlling_thread_effect (ui_spawn o) w1) as (P2 & _).
  cbv zeta in P2. panel P2.
  set (w2 := fold_left ui_step (ui_spawn o) w1) in *.
  destruct (spawn o cmd) as [e | c] eqn:Hs.
  { rewrite (run_child_spawn_error o cmd _ _ e Hs). cbn [fst snd].
    split; congruence. }
  destruct (run_child_spec o cmd (clock o (clock_reads w)) w2 c Hs)
    as (ls & cancelled & r & h & _ & _ & A3 & _ & _ & M3 & _).
  cbv zeta in *.
  destruct (run_child o cmd (clock o (clock_reads w)) w2)
    as [[e | exit_status] w3]; cbn [fst snd] in *.
  { split; congruence. }
  destruct (controlling_thread_effect (ui_exit o) w3) as (P4 & _).
  cbv zeta in P4. panel P4.
  unfold run_epilogue. unfold_gui. fields. split; congruence.
Qed.

(** Clicks on an enabled Run button: each one starts a thread and leaves
    the button as it is. *)
Lemma clicks_enabled (script : string) (k : nat) :
  forall w : world,
  _run_button w = NORMAL ->
  _run_button_command w = Some script ->
  threads (clicks k w) = (threads w + k)%nat /\
  _run_button (clicks k w) = NORMAL /\
  _run_button_command (clicks k w) = Some script /\
  trace (clicks k w) = (trace w ++ repeat ThreadStart k)%list.
Proof.
  induction k as [|k IH]; intros w Hn Hc; unfold clicks.
  - cbn. rewrite Nat.add_0_r, app_nil_r. auto.
  - rewrite !Nat.iter_succ.
    destruct (IH w Hn Hc) as (T & B & C & L). unfold clicks in T, B, C, L.
    set (x := Nat.iter k click_run w) in *. unfold click_run. rewrite B, C.
    unfold threadify_wrapper. fields. rewrite T, L.
    split; [lia|]. split; [exact B|]. split; [exact C|].
    rewrite <- app_assoc. f_equal. symmetry. apply repeat_cons.
Qed.

Lemma clicks_disabled (k : nat) (w : world) :
  _run_button w = DISABLED -> clicks k w = w.
Proof.
  intros Hd. unfold clicks. induction k as [|k IH]; [reflexivity|].
  rewrite Nat.iter_succ, IH. apply click_run_disabled, Hd.
Qed.

(** X9: a run whose child is spawned keeps the selected file and the
    command of the Run button, so the next run builds the same command.
    When the run returns, the Run button is enabled again and every further
    click starts one more thread.  When a read of the pipe raises, the
    thread dies inside the [with] block and the button stays disabled: no
    number of clicks starts anything. *)
Theorem run_button_after_a_run (o : oracle) (filename : string) (w : world)
    (cmd : list string) (c : process) (script : string) :
  fst (_build_script_command filename w) = inr cmd ->
  spawn o cmd = inr c ->
  _run_button_command w = Some script ->
  let res := _run_script o filename w in
  fst (_build_script_command filename (snd res)) = inr cmd /\
  (fst res = inr tt ->
     _run_button (snd res) = NORMAL /\
     forall k : nat,
       threads (clicks k (snd res)) = (threads (snd res) + k)%nat /\
       _run_button (clicks k (snd res)) = NORMAL) /\
  (forall e : exn, fst res = inl e ->
     In (inl e) (output c) /\
     _run_button (snd res) = DISABLED /\
     forall k : nat, clicks k (snd res) = snd res).
Proof.
  intros Hb Hs Hc. cbv zeta.
  destruct (run_script_frame o filename w) as (Fa & Fc).
  destruct (run_script_spawned o filename w cmd c Hb Hs)
    as (n & ls & cancelled & r & h & E & R & _).
  cbv zeta in R.
  split.
  { rewrite (build_script_command_file_arg filename w _ Fa). exact Hb. }
  destruct r as [e0 | exit_status].
  - destruct R as (Rr & _ & Rb & _). split; [intros Ho; congruence|].
    intros e He. assert (e = e0) by congruence. subst e0.
    split; [exact (proj2 (loop_exit_raise _ _ _ _ E))|].
    split; [exact Rb|]. intros k. apply clicks_disabled, Rb.
  - destruct R as (Rr & _ & Rb & _). split; [|intros e He; congruence].
    intros _. split; [exact Rb|]. intros k.
    rewrite Hc in Fc.
    destruct (clicks_enabled script k _ Rb Fc) as (T & B & _).
    split; assumption.
Qed.

Lemma run_button_after_a_run_witness :
  _run_button (snd (_run_script read_fails "driver.py" (click_run ready)))
  = DISABLED /\
  clicks 2 (snd (_run_script read_fails "driver.py" (click_run ready)))
  = snd (_run_script read_fails "driver.py" (click_run ready)).
Proof.
  assert (He : fst (_run_script read_fails "driver.py" (click_run ready))
               = inl (RuntimeExc "UnicodeDecodeError"))
    by (vm_compute; reflexivity).
  pose proof (proj2 (proj2
    (run_button_after_a_run read_fails "driver.py" (click_run ready)
       ["python"; "-u"; "driver.py"]
       {| output := [inr ("a" ++ newline);
                     inl (RuntimeExc "UnicodeDecodeError")];
          exit_code := 0; exited_when_polled := true |}
       "driver.py" eq_refl eq_refl eq_refl)) _ He) as H.
  split; [exact (proj1 (proj2 H)) | exact (proj2 (proj2 H) 2%nat)].
Defined.

(** ** X10: the Show/Hide button *)

Lemma show_text_shown (v : window) : output_shown (_show_text v).
Proof. repeat split. Qed.

Lemma hide_text_hidden (v : window) : output_hidden (_hide_text v).
Proof. repeat split. Qed.

(** X10: the Show/Hide button and the text widget never get out of step.
    A new window has the output hidden; a click on the button turns a window
    with the output hidden into one with the output shown, and the other way
    round; two clicks bring the window back exactly; the button never touches
    the rest of the object; and neither choosing a file nor any method run on
    the object changes which of the two states the window is in. *)
Theorem show_hide_button_toggles (v : window) :
  (forall title : string, output_hidden (BasicGUI___init__ title)) /\
  (output_hidden v -> output_shown (click_show_output v)) /\
  (output_shown v -> output_hidden (click_show_output v)) /\
  (output_hidden v \/ output_shown v ->
   click_show_output (click_show_output v) = v) /\
  gui (click_show_output v) = gui v /\
  (forall (relpath : string -> string) (chosen : string),
     (output_hidden v -> output_hidden (window_get_file_to_run relpath chosen v))
     /\
     (output_shown v -> output_shown (window_get_file_to_run relpath chosen v)))
  /\
  (forall (A : Type) (m : M A),
     (output_hidden v -> output_hidden (snd (on_gui m v))) /\
     (output_shown v -> output_shown (snd (on_gui m v)))).
Proof.
  split; [intros t; repeat split|].
  split.
  { intros (C & _). unfold click_show_output. rewrite C.
    apply show_text_shown. }
  split.
  { intros (C & _). unfold click_show_output. rewrite C.
    apply hide_text_hidden. }
  split.
  { destruct v as [g t s0 s1 geo txt cmd packed label].
    unfold output_hidden, output_shown, click_show_output.
    cbn. intros [(-> & -> & -> & ->) | (-> & -> & -> & ->)]; reflexivity. }
  split.
  { unfold click_show_output. destruct (_show_output_command v); reflexivity. }
  split.
  { intros relpath chosen. unfold window_get_file_to_run.
    destruct (String.eqb chosen ""); split; intros H; exact H. }
  intros A m. unfold on_gui. destruct (m (gui v)) as [r w'].
  split; intros H; exact H.
Qed.

Lemma show_hide_button_toggles_witness :
  output_shown (click_show_output (BasicGUI___init__ "RAVEN")) /\
  click_show_output (click_show_output (BasicGUI___init__ "RAVEN"))
  = BasicGUI___init__ "RAVEN".
Proof.
  pose proof (show_hide_button_toggles (BasicGUI___init__ "RAVEN")) as H.
  destruct H as (H0 & H1 & _ & H3 & _).
  split; [exact (H1 (H0 "RAVEN")) | exact (H3 (or_introl (H0 "RAVEN")))].
Defined.

(** ** X11: the status panel and the status updates *)

Lemma ui_step_time_label (w : world) (ev : ui_event) :
  _time_elapsed_label (ui_step w ev) = _time_elapsed_label w.
Proof.
  destruct ev as [[|]|]; cbn; try reflexivity.
  unfold click_run.
  destruct (_run_button w); [destruct (_run_button_command w)|]; reflexivity.
Qed.

Lemma controlling_thread_panel (evs : list ui_event) (w : world) :
  panel_of (fold_left ui_step evs w) = panel_of w.
Proof.
  unfold panel_of. f_equal.
  - destruct (controlling_thread_effect evs w) as (P & _). cbv zeta in P.
    panel P. assumption.
  - revert w. induction evs as [|ev evs IH]; intros w; cbn [fold_left];
      [reflexivity|].
    rewrite IH. apply ui_step_time_label.
Qed.

Lemma shown_thread_starts (n : nat) (labels : string * string) :
  fold_left shown (repeat ThreadStart n) labels = labels.
Proof. induction n as [|n IH]; [reflexivity | exact IH]. Qed.

Lemma p_poll_panel (w : world) :
  panel_of (snd (p_poll w)) = panel_of w /\
  _cancel_button (snd (p_poll w)) = _cancel_button w.
Proof.
  unfold p_poll. destruct (children w) as [|p ps]; [|destruct (poll p)];
    split; reflexivity.
Qed.

Lemma panel_follows_refl (w : world) : panel_follows w w.
Proof. exists []. rewrite app_nil_r. split; reflexivity. Qed.

Lemma panel_follows_trans (w1 w2 w3 : world) :
  panel_follows w1 w2 -> panel_follows w2 w3 -> panel_follows w1 w3.
Proof.
  intros (evs1 & T1 & X1) (evs2 & T2 & X2). exists (evs1 ++ evs2)%list.
  rewrite T2, T1, X2, X1, fold_left_app, app_assoc. split; reflexivity.
Qed.

Lemma panel_follows_quiet (w w' : world) :
  trace w' = trace w -> panel_of w' = panel_of w -> panel_follows w w'.
Proof.
  intros T X. exists []. rewrite T, X, app_nil_r. split; reflexivity.
Qed.

Lemma keeps_panel_ret (A : Type) (a : A) : keeps_panel (ret a).
Proof. intros w. apply panel_follows_refl. Qed.

Lemma keeps_panel_raise (A : Type) (e : exn) : keeps_panel (@raise A e).
Proof. intros w. apply panel_follows_refl. Qed.

Lemma keeps_panel_gets (A : Type) (f : world -> A) : keeps_panel (gets f).
Proof. intros w. apply panel_follows_refl. Qed.

Lemma keeps_panel_bind (A B : Type) (m : M A) (k : A -> M B) :
  keeps_panel m -> (forall a : A, keeps_panel (k a)) -> keeps_panel (bind m k).
Proof.
  intros Hm Hk w. unfold bind. specialize (Hm w).
  destruct (m w) as [[e | a] w1]; cbn [snd] in *; [exact Hm|].
  eapply panel_follows_trans; [exact Hm | apply Hk].
Qed.

Lemma keeps_panel_finally (A : Type) (body : M A) (cleanup : world -> world) :
  keeps_panel body ->
  (forall w, trace (cleanup w) = trace w /\ panel_of (cleanup w) = panel_of w) ->
  keeps_panel (finally body cleanup).
Proof.
  intros Hb Hc w. unfold finally. specialize (Hb w).
  destruct (body w) as [r w1]. cbn [snd] in *.
  eapply panel_follows_trans; [exact Hb|].
  apply panel_follows_quiet; apply Hc.
Qed.

Lemma keeps_panel_quiet (f : world -> world) :
  (forall w, trace (f w) = trace w /\ panel_of (f w) = panel_of w) ->
  keeps_panel (act f).
Proof. intros H w. apply panel_follows_quiet; apply H. Qed.

Lemma keeps_panel_controlling_thread (evs : list ui_event) :
  keeps_panel (controlling_thread evs).
Proof.
  intros w. unfold controlling_thread, act. cbn [snd].
  destruct (controlling_thread_effect evs w) as (_ & _ & _ & _ & n & _ & L & _).
  cbv zeta in L. exists (repeat ThreadStart n). split; [exact L|].
  rewrite controlling_thread_panel, shown_thread_starts. reflexivity.
Qed.

Lemma keeps_panel_write_line (line : string) : keeps_panel (write_line line).
Proof. intros w. exists [OutputEvent line]. split; reflexivity. Qed.

Lemma keeps_panel_update_status (status : option string)
    (time_elapsed : option Q) :
  keeps_panel (_update_status status time_elapsed).
Proof.
  intros w. exists [StatusUpdate status time_elapsed].
  unfold _update_status, act. cbn [snd].
  destruct status, time_elapsed; split; reflexivity.
Qed.

Lemma keeps_panel_time_time (o : oracle) : keeps_panel (time_time o).
Proof. intros w. apply panel_follows_quiet; reflexivity. Qed.

Lemma keeps_panel_p_terminate : keeps_panel p_terminate.
Proof. intros w. exists [TerminateRequest]. split; reflexivity. Qed.

Lemma keeps_panel_p_poll : keeps_panel p_poll.
Proof.
  intros w. destruct (p_poll_flag w) as (_ & _ & T & _).
  destruct (p_poll_panel w) as (X & _).
  apply panel_follows_quiet; assumption.
Qed.

Lemma keeps_panel_Popen_new (o : oracle) (cmd : list string) :
  keeps_panel (Popen_new o cmd).
Proof.
  intros w. unfold Popen_new. destruct (spawn o cmd) as [e | c]; cbn [snd].
  - apply panel_follows_refl.
  - exists [Spawn cmd]. split; reflexivity.
Qed.

Lemma keeps_panel_build_script_command (filename : string) :
  keeps_panel (_build_script_command filename).
Proof.
  intros w. rewrite build_script_command_world. apply panel_follows_refl.
Qed.

Ltac keeps_panel_steps :=
  repeat first
    [ apply keeps_panel_ret | apply keeps_panel_raise | apply keeps_panel_gets
    | apply keeps_panel_controlling_thread | apply keeps_panel_write_line
    | apply keeps_panel_update_status | apply keeps_panel_time_time
    | apply keeps_panel_p_terminate | apply keeps_panel_p_poll
    | apply keeps_panel_Popen_new | apply keeps_panel_build_script_command
    | apply keeps_panel_quiet; intro; split; reflexivity
    | apply keeps_panel_bind; [|intro] ].

Lemma keeps_panel_output_loop (o : oracle) (st : Q)
    (stdout : list (exn + string)) :
  forall k : nat, keeps_panel (output_loop o st k stdout).
Proof.
  induction stdout as [|[e | l] rest IH]; intros k; cbn [output_loop];
    keeps_panel_steps.
  match goal with |- keeps_panel (if ?b then _ else _) => destruct b end.
  - keeps_panel_steps.
  - apply IH.
Qed.

Lemma keeps_panel_run_child (o : oracle) (cmd : list string) (st : Q) :
  keeps_panel (run_child o cmd st).
Proof.
  unfold run_child. apply keeps_panel_bind; [apply keeps_panel_Popen_new|].
  intros p. apply keeps_panel_finally; [|intro; split; reflexivity].
  keeps_panel_steps; [apply keeps_panel_output_loop|].
  match goal with |- keeps_panel (if ?b then _ else _) => destruct b end;
    keeps_panel_steps.
Qed.

Lemma keeps_panel_run_script (o : oracle) (filename : string) :
  keeps_panel (_run_script o filename).
Proof.
  unfold _run_script.
  apply keeps_panel_bind; [unfold run_prologue; keeps_panel_steps | intros cs].
  apply keeps_panel_bind; [apply keeps_panel_controlling_thread | intros _].
  apply keeps_panel_bind; [apply keeps_panel_run_child | intros exit_status].
  apply keeps_panel_bind; [apply keeps_panel_controlling_thread | intros _].
  unfold run_epilogue. keeps_panel_steps.
Qed.

(** X11: the status panel is written through [_update_status] only.  At the
    end of a run, however it ends, the two labels are what the status
    updates among the events of the run leave, applied in order to the
    labels of before the run: each label is the one of the last update that
    carries it, or the old one when there is none.  The same holds of
    [get_file_to_run] and of [run_script], and the two ways of writing text
    leave the panel alone. *)
Theorem status_panel_shows_the_last_update (o : oracle) (filename : string)
    (w : world) :
  panel_of (snd (_run_script o filename w))
  = fold_left shown (run_events o filename w) (panel_of w) /\
  (forall chosen : string, panel_follows w (snd (get_file_to_run chosen w))) /\
  (forall (path_exists : string -> bool) (script : string)
          (requires_input : bool),
     panel_follows w (snd (run_script path_exists script requires_input w))) /\
  (forall text : string,
     panel_of (snd (write text w)) = panel_of w /\
     panel_of (snd (write_line text w)) = panel_of w).
Proof.
  split; [|split; [|split]].
  - destruct (keeps_panel_run_script o filename w) as (evs & T & X).
    unfold run_events. rewrite (run_events_trace w _ evs T). exact X.
  - intros chosen. revert w. change (keeps_panel (get_file_to_run chosen)).
    unfold get_file_to_run. destruct (String.eqb chosen "");
      keeps_panel_steps.
  - intros path_exists script requires_input. revert w.
    change (keeps_panel (run_script path_exists script requires_input)).
    unfold run_script.
    destruct (negb (path_exists script)), (negb requires_input);
      keeps_panel_steps.
  - intros text. split; [|reflexivity].
    unfold write, act. cbn [snd]. rewrite write_chars_text.
    destruct text; reflexivity.
Qed.

(** ** X12: the Cancel button *)

Lemma keeps_cancel_enabled_ret (A : Type) (a : A) :
  keeps_cancel_enabled (ret a).
Proof. intros w H. exact H. Qed.

Lemma keeps_cancel_enabled_raise (A : Type) (e : exn) :
  keeps_cancel_enabled (@raise A e).
Proof. intros w H. exact H. Qed.

Lemma keeps_cancel_enabled_gets (A : Type) (f : world -> A) :
  keeps_cancel_enabled (gets f).
Proof. intros w H. exact H. Qed.

Lemma keeps_cancel_enabled_bind (A B : Type) (m : M A) (k : A -> M B) :
  keeps_cancel_enabled m -> (forall a : A, keeps_cancel_enabled (k a)) ->
  keeps_cancel_enabled (bind m k).
Proof.
  intros Hm Hk w H. unfold bind. specialize (Hm w H).
  destruct (m w) as [[e | a] w1]; cbn [snd] in *; [exact Hm|].
  apply Hk, Hm.
Qed.

Lemma keeps_cancel_enabled_finally (A : Type) (body : M A)
    (cleanup : world -> world) :
  keeps_cancel_enabled body ->
  (forall w, _cancel_button (cleanup w) = _cancel_button w) ->
  keeps_cancel_enabled (finally body cleanup).
Proof.
  intros Hb Hc w H. unfold finally. specialize (Hb w H).
  destruct (body w) as [r w1]. cbn [snd] in *. rewrite Hc. exact Hb.
Qed.

Lemma keeps_cancel_enabled_act (f : world -> world) :
  (forall w, _cancel_button (f w) = _cancel_button w \/
             _cancel_button (f w) = NORMAL) ->
  keeps_cancel_enabled (act f).
Proof.
  intros Hf w H. unfold act. cbn [snd]. destruct (Hf w); congruence.
Qed.

Lemma keeps_cancel_enabled_controlling_thread (evs : list ui_event) :
  keeps_cancel_enabled (controlling_thread evs).
Proof.
  intros w H. unfold controlling_thread, act. cbn [snd].
  destruct (controlling_thread_effect evs w) as (P & _). cbv zeta in P.
  panel P. congruence.
Qed.

Lemma keeps_cancel_enabled_update_status (status : option string)
    (time_elapsed : option Q) :
  keeps_cancel_enabled (_update_status status time_elapsed).
Proof.
  intros w H. unfold _update_status, act. cbn [snd].
  destruct status, time_elapsed; exact H.
Qed.

Lemma keeps_cancel_enabled_time_time (o : oracle) :
  keeps_cancel_enabled (time_time o).
Proof. intros w H. exact H. Qed.

Lemma keeps_cancel_enabled_p_poll : keeps_cancel_enabled p_poll.
Proof.
  intros w H. destruct (p_poll_panel w) as (_ & X). congruence.
Qed.

Lemma keeps_cancel_enabled_Popen_new (o : oracle) (cmd : list string) :
  keeps_cancel_enabled (Popen_new o cmd).
Proof.
  intros w H. unfold Popen_new. destruct (spawn o cmd); exact H.
Qed.

Lemma keeps_cancel_enabled_build_script_command (filename : string) :
  keeps_cancel_enabled (_build_script_command filename).
Proof. intros w H. rewrite build_script_command_world. exact H. Qed.

Ltac keeps_cancel_enabled_steps :=
  repeat first
    [ apply keeps_cancel_enabled_ret | apply keeps_cancel_enabled_raise
    | apply keeps_cancel_enabled_gets
    | apply keeps_cancel_enabled_controlling_thread
    | apply keeps_cancel_enabled_update_status
    | apply keeps_cancel_enabled_time_time
    | apply keeps_cancel_enabled_p_poll
    | apply keeps_cancel_enabled_Popen_new
    | apply keeps_cancel_enabled_build_script_command
    | apply keeps_cancel_enabled_act; intro;
      first [left; reflexivity | right; reflexivity]
    | apply keeps_cancel_enabled_bind; [|intro] ].

Lemma keeps_cancel_enabled_output_loop (o : oracle) (st : Q)
    (stdout : list (exn + string)) :
  forall k : nat, keeps_cancel_enabled (output_loop o st k stdout).
Proof.
  induction stdout as [|[e | l] rest IH]; intros k; cbn [output_loop];
    unfold write_line, p_terminate; keeps_cancel_enabled_steps.
  match goal with
  | |- keeps_cancel_enabled (if ?b then _ else _) => destruct b
  end.
  - keeps_cancel_enabled_steps.
  - apply IH.
Qed.

Lemma keeps_cancel_enabled_run_child (o : oracle) (cmd : list string)
    (st : Q) :
  keeps_cancel_enabled (run_child o cmd st).
Proof.
  unfold run_child.
  apply keeps_cancel_enabled_bind; [apply keeps_cancel_enabled_Popen_new|].
  intros p. apply keeps_cancel_enabled_finally; [|intro; reflexivity].
  keeps_cancel_enabled_steps; [apply keeps_cancel_enabled_output_loop|].
  match goal with
  | |- keeps_cancel_enabled (if ?b then _ else _) => destruct b
  end; keeps_cancel_enabled_steps.
Qed.

(** X12: the Cancel button is enabled when the window is built and nothing
    ever disables it: the thread body, however it ends, and every other
    method and user event leave it enabled when they find it so.  The call
    that enables it at the start of the [with] block changes nothing on a
    window built by the constructor, and a cancel request can be made while
    no script runs. *)
Theorem cancel_button_is_never_disabled :
  _cancel_button BasicGUI_init = NORMAL /\
  (forall (o : oracle) (filename : string),
     keeps_cancel_enabled (_run_script o filename)) /\
  (forall chosen : string, keeps_cancel_enabled (get_file_to_run chosen)) /\
  (forall (path_exists : string -> bool) (script : string)
          (requires_input : bool),
     keeps_cancel_enabled (run_script path_exists script requires_input)) /\
  (forall text : string,
     keeps_cancel_enabled (write text) /\
     keeps_cancel_enabled (write_line text)) /\
  (forall (w : world) (ev : ui_event),
     _cancel_button w = NORMAL -> _cancel_button (ui_step w ev) = NORMAL).
Proof.
  split; [reflexivity|]. split; [|split; [|split; [|split]]].
  - intros o filename. unfold _run_script.
    apply keeps_cancel_enabled_bind;
      [unfold run_prologue; keeps_cancel_enabled_steps | intros cs].
    apply keeps_cancel_enabled_bind;
      [apply keeps_cancel_enabled_controlling_thread | intros _].
    apply keeps_cancel_enabled_bind;
      [apply keeps_cancel_enabled_run_child | intros exit_status].
    apply keeps_cancel_enabled_bind;
      [apply keeps_cancel_enabled_controlling_thread | intros _].
    unfold run_epilogue. keeps_cancel_enabled_steps.
  - intros chosen. unfold get_file_to_run.
    destruct (String.eqb chosen ""); keeps_cancel_enabled_steps.
  - intros path_exists script requires_input. unfold run_script.
    destruct (negb (path_exists script)), (negb requires_input);
      keeps_cancel_enabled_steps.
  - intros text. split.
    + intros w H. unfold write, act. cbn [snd]. rewrite write_chars_text.
      destruct text; exact H.
    + intros w H. exact H.
  - intros w ev H.
    destruct (ui_step_effect w ev) as (P & _). cbv zeta in P. panel P.
    congruence.
Qed.

Lemma cancel_button_is_never_disabled_witness :
  _cancel_button
    (snd (_run_script cancel_mid_stream "driver.py" (click_run ready)))
  = NORMAL.
Proof.
  apply (proj1 (proj2 cancel_button_is_never_disabled) cancel_mid_stream
           "driver.py" (click_run ready)).
  reflexivity.
Defined.
